(** * Audio extraction from uploaded videos

    A shallow embedding of [streamlit_app_multi.py]: the class
    [AudioExtractor], the bundler [create_zip_file], and the module-level
    batch loop and download section, with the properties its
    specification states about them.

    Conventions of the model.
    - Python [str] is [string], holding the UTF-8 encoding of the text.
      [str.lower] is computed on a string of ASCII characters; on a string
      with any other character it is a parameter (the Unicode case tables
      are not modelled).
    - [pathlib] and [os.path] are the POSIX flavours (CPython up to 3.13 for
      [PurePath.suffix] and [PurePath.stem]).
    - The file system is a finite, flat map from path strings to nodes: a
      regular file with its contents, or a directory.  Paths are compared
      as strings; what lies below a directory is not followed.  What else
      makes the operating system refuse to create, read, remove or rename
      a file (a missing parent, a name too long, permissions) or [zipfile]
      refuse to store one (a time stamp before 1980) is a parameter.
    - ffmpeg, ffprobe, MoviePy and pydub are parameters ([Externals]): any
      function of the call's arguments and of the file system, free to fail
      and to change the file system.
    - Only exceptions derived from Python's [Exception] are modelled (those
      an [except Exception] clause catches).
    - Widgets that only draw (progress bar, status text, messages) are left
      out; the session state they read is part of [World]. *)

From Stdlib Require Import ZArith Ascii String List Bool Lia.
From stdpp Require Import gmap strings list fin_maps.

Local Open Scope string_scope.
Local Open Scope list_scope.

(** ** Python strings *)

Module PyStr.

(** [c.lower()] for one character. *)
Definition lower_ascii (c : ascii) : ascii :=
  let n := nat_of_ascii c in
  if (65 <=? n)%nat && (n <=? 90)%nat then ascii_of_nat (n + 32) else c.

Fixpoint ascii_lower (s : string) : string :=
  match s with
  | EmptyString => EmptyString
  | String c r => String (lower_ascii c) (ascii_lower r)
  end.

(** [s.isascii()] *)
Fixpoint isascii (s : string) : bool :=
  match s with
  | EmptyString => true
  | String c r => (nat_of_ascii c <? 128)%nat && isascii r
  end.

(** [s.lower()]: on a string of ASCII characters the letters A-Z are
    lowered; on any other string the result is what [unicode_lower], the
    case mapping of Unicode, gives. *)
Definition lower (unicode_lower : string -> string) (s : string) : string :=
  if isascii s then ascii_lower s else unicode_lower s.

Fixpoint rfind_from (c : ascii) (s : string) (pos last : Z) : Z :=
  match s with
  | EmptyString => last
  | String a r =>
      rfind_from c r (pos + 1) (if Ascii.eqb a c then pos else last)
  end.

(** [s.rfind(c)]: the index of the last [c] in [s], or [-1]. *)
Definition rfind (c : ascii) (s : string) : Z := rfind_from c s 0 (-1).

Fixpoint drop (n : nat) (s : string) : string :=
  match n, s with
  | O, _ => s
  | S _, EmptyString => EmptyString
  | S k, String _ r => drop k r
  end.

Fixpoint take (n : nat) (s : string) : string :=
  match n, s with
  | O, _ => EmptyString
  | S _, EmptyString => EmptyString
  | S k, String c r => String c (take k r)
  end.

(** [s[i:]] and [s[:i]] for an index [0 <= i]. *)
Definition slice_from (s : string) (i : Z) : string := drop (Z.to_nat i) s.
Definition slice_to (s : string) (i : Z) : string := take (Z.to_nat i) s.

(** [s.startswith(pre)] *)
Definition startswith (s pre : string) : bool := String.prefix pre s.

(** [s.endswith(suf)] *)
Definition endswith (s suf : string) : bool :=
  let n := String.length s in
  let m := String.length suf in
  (m <=? n)%nat && String.eqb (drop (n - m) s) suf.

Fixpoint intersperse (new s : string) : string :=
  match s with
  | EmptyString => EmptyString
  | String c r => String c (new +:+ intersperse new r)
  end.

Fixpoint replace_scan (old new s : string) (skip : nat) : string :=
  match s with
  | EmptyString => EmptyString
  | String c r =>
      match skip with
      | S k => replace_scan old new r k
      | O =>
          if String.prefix old s
          then new +:+ replace_scan old new r (String.length old - 1)
          else String c (replace_scan old new r 0)
      end
  end.

(** [s.replace(old, new)]: every non-overlapping occurrence, left to
    right; an empty [old] matches before every character and at the
    end. *)
Definition replace (s old new : string) : string :=
  match old with
  | EmptyString => new +:+ intersperse new s
  | _ => replace_scan old new s 0
  end.

(** [sep.join(l)] *)
Definition join (sep : string) (l : list string) : string :=
  String.concat sep l.

(** [s.rstrip('/')] *)
Fixpoint rstrip_slash (s : string) : string :=
  match s with
  | EmptyString => EmptyString
  | String c r =>
      let r' := rstrip_slash r in
      if String.eqb r' "" && Ascii.eqb c "/" then "" else String c r'
  end.

(** [s.split('/')] *)
Fixpoint split_slash (s : string) : list string :=
  match s with
  | EmptyString => [EmptyString]
  | String c r =>
      if Ascii.eqb c "/" then EmptyString :: split_slash r
      else match split_slash r with
           | [] => [String c EmptyString]
           | h :: t => String c h :: t
           end
  end.

End PyStr.

(** ** [os.path] and [pathlib.Path] *)

Module PosixPath.
Import PyStr.

(** [Path(p).name]: the last component of [p], components that are empty
    or ["."] being dropped. *)
Definition name (p : string) : string :=
  List.last
    (List.filter (fun x => negb (String.eqb x "") && negb (String.eqb x "."))
                 (split_slash p))
    "".

(** The test [0 < i < len(name) - 1] of [suffix] and [stem]. *)
Definition suffix_at (nm : string) (i : Z) : bool :=
  ((0 <? i) && (i <? Z.of_nat (String.length nm) - 1))%Z.

(** [Path(p).suffix] *)
Definition suffix (p : string) : string :=
  let nm := name p in
  let i := rfind "." nm in
  if suffix_at nm i then slice_from nm i else "".

(** [Path(p).stem] *)
Definition stem (p : string) : string :=
  let nm := name p in
  let i := rfind "." nm in
  if suffix_at nm i then slice_to nm i else nm.

(** [os.path.basename(p)] *)
Definition basename (p : string) : string :=
  slice_from p (rfind "/" p + 1).

Fixpoint all_slash (s : string) : bool :=
  match s with
  | EmptyString => true
  | String c r => Ascii.eqb c "/" && all_slash r
  end.

(** [os.path.dirname(p)] *)
Definition dirname (p : string) : string :=
  let head := slice_to p (rfind "/" p + 1) in
  if negb (String.eqb head "") && negb (all_slash head)
  then rstrip_slash head else head.

(** [os.path.join(a, b)] *)
Definition join (a b : string) : string :=
  if startswith b "/" then b
  else if String.eqb a "" || endswith a "/" then a +:+ b
  else a +:+ "/" +:+ b.

End PosixPath.

(** ** Exceptions and results *)

(** The text an exception carries.  The two validators build theirs from
    the path or the extension; every other text comes from a library. *)
Inductive message : Type :=
| MsgInputNotFound (input_path : string)    (* line 35 *)
| MsgUnsupportedVideo (file_ext : string)   (* line 39 *)
| MsgUnsupportedAudio (file_ext : string)   (* line 47 *)
| MsgText (text : string).

(** The exception classes the program can meet. *)
Inductive exn : Type :=
| FileNotFoundError (m : message)
| ValueError (m : message)
| TypeError (m : message)
| AttributeError (m : message)
| IsADirectoryError (m : message)
| DuplicateWidgetID (m : message)     (* Streamlit: a widget key used twice *)
| OtherException (m : message).

Inductive result (A : Type) : Type :=
| Ret (a : A)
| Raise (e : exn).

Arguments Ret {A} a.
Arguments Raise {A} e.

(** ** The world: file system, decoder handles, session state *)

Abbreviation bytes := (list Byte.byte).

(** What is at a path: a regular file or a directory. *)
Inductive node : Type :=
| File (data : bytes)
| Directory.

Abbreviation FS := (gmap string node).

(** What [subprocess.run] returns. *)
Record CompletedProcess : Type := {
  returncode : Z;
  stdout : string;
  stderr : string
}.

(** The dictionary [get_audio_info] returns.  A field is [None] when the
    stream has no such key; [duration] is kept as the text ffprobe printed. *)
Record AudioInfo : Type := {
  codec : option string;
  sample_rate : option string;
  channels : option string;
  bit_rate : option string;
  duration : string
}.

(** MoviePy clips and pydub segments.  A clip knows the decoder
    processes (readers) it started. *)
Record AudioFileClip : Type := {
  audio_source : string;
  audio_reader : nat
}.

Record VideoClip : Type := {
  video_source : string;
  video_reader : nat;
  audio : option AudioFileClip    (* [video.audio], [None] without audio track *)
}.

Record AudioSegment : Type := { samples : bytes }.

(** A decoder process MoviePy keeps open for a clip: its number and the
    file it reads. *)
Inductive handle : Type :=
| VideoReader (id : nat) (source : string)
| AudioReader (id : nat) (source : string).

Definition handle_id (h : handle) : nat :=
  match h with
  | VideoReader id _ => id
  | AudioReader id _ => id
  end.

(** A number no open reader has. *)
Definition fresh_handle (l : list handle) : nat :=
  S (List.list_max (List.map handle_id l)).

Inductive info_kind : Type := Original | Extracted.

(** One constructor per [st.session_state.log_messages.append] in the
    source, with the values its f-string interpolates. *)
Inductive LogEntry : Type :=
| LogFfmpegCommand (joined : string)            (* line 113 *)
| LogFfmpegError (stderr_text : string)         (* line 117 *)
| LogFfmpegDone (output_path : string)          (* line 120 *)
| LogFfmpegException (e : exn)                  (* line 124 *)
| LogMoviepyStart                               (* line 132 *)
| LogMoviepyDone (output_path : string)         (* line 150 *)
| LogMoviepyException (e : exn)                 (* line 154 *)
| LogConvertException (e : exn)                 (* line 176 *)
| LogProbeException (e : exn)                   (* line 214 *)
| LogInputFile (input_path : string)            (* line 233 *)
| LogOutputFile (output_path : string)          (* line 234 *)
| LogOutputFormat (output_format : string)      (* line 235 *)
| LogInfoHeader (k : info_kind)                 (* lines 240, 260 *)
| LogCodec (v : option string)                  (* lines 241, 261 *)
| LogSampleRate (v : option string)             (* lines 242, 262 *)
| LogChannels (v : option string)               (* lines 243, 263 *)
| LogBitRate (v : option string)                (* lines 244, 264 *)
| LogDuration (v : string)                      (* lines 245, 265 *)
| LogRetryWithMoviepy                           (* line 253 *)
| LogFileSize (file_size : N)                   (* line 268 *)
| LogExtractionSucceeded                        (* line 271 *)
| LogExtractionFailed                           (* line 274 *)
| LogError (e : exn)                            (* line 278 *)
| LogItemHeader (i total : nat) (name : string) (* line 384 *)
| LogItemDone (name : string)                   (* line 392 *)
| LogItemFailed (name : string).                (* line 394 *)

Record World : Type := {
  fs : FS;
  open_handles : list handle;
  log_messages : list LogEntry;          (* st.session_state.log_messages *)
  output_audio_paths : list string;      (* st.session_state.output_audio_paths *)
  processing_complete : bool             (* st.session_state.processing_complete *)
}.

Definition upd_fs (f : FS -> FS) (w : World) : World :=
  {| fs := f (fs w); open_handles := open_handles w;
     log_messages := log_messages w;
     output_audio_paths := output_audio_paths w;
     processing_complete := processing_complete w |}.

Definition upd_handles (f : list handle -> list handle) (w : World) : World :=
  {| fs := fs w; open_handles := f (open_handles w);
     log_messages := log_messages w;
     output_audio_paths := output_audio_paths w;
     processing_complete := processing_complete w |}.

Definition append_log (e : LogEntry) (w : World) : World :=
  {| fs := fs w; open_handles := open_handles w;
     log_messages := log_messages w ++ [e];
     output_audio_paths := output_audio_paths w;
     processing_complete := processing_complete w |}.

Definition append_output_path (p : string) (w : World) : World :=
  {| fs := fs w; open_handles := open_handles w;
     log_messages := log_messages w;
     output_audio_paths := output_audio_paths w ++ [p];
     processing_complete := processing_complete w |}.

Definition set_processing_complete (b : bool) (w : World) : World :=
  {| fs := fs w; open_handles := open_handles w;
     log_messages := log_messages w;
     output_audio_paths := output_audio_paths w;
     processing_complete := b |}.

(** Lines 354-356: the session lists are emptied when a run starts. *)
Definition reset_session (w : World) : World :=
  {| fs := fs w; open_handles := open_handles w;
     log_messages := [];
     output_audio_paths := [];
     processing_complete := false |}.

(** [os.path.exists] *)
Definition path_exists (files : FS) (p : string) : bool :=
  bool_decide (is_Some (files !! p)).

(** ** The libraries and tools the program calls *)

(** The calls on a path that is on disk which the operating system can
    still refuse. *)
Inductive file_op : Type :=
| OpenRead      (* [open(path, "rb")] and [f.read()] *)
| Remove        (* [os.remove(path)] *)
| Rename.       (* [os.rename(path, ...)] *)

Record Externals : Type := {
  (** [str.lower] on a string that has a non-ASCII character. *)
  unicode_lower : string -> string;
  (** [open(path, "wb")] followed by [f.write(data)], when the operating
      system refuses: the exception, and the file system it leaves.
      [None] when nothing stands in the way. *)
  open_write_error : string -> bytes -> FS -> option (exn * FS);
  (** The operating system refusing to read, remove or rename what is at
      a path (permissions, a sticky directory): the exception.  [None]
      when nothing stands in the way. *)
  os_refuses : file_op -> string -> FS -> option exn;
  (** [os.path.getsize] of a directory. *)
  directory_size : string -> FS -> N;
  (** [zip_file.write(path, ...)] refusing a path that is on disk (a time
      stamp before 1980, a file it may not read): the exception. *)
  zip_write_error : string -> FS -> option exn;
  (** [subprocess.run(cmd, capture_output=True, text=True)] *)
  subprocess_run : list string -> FS -> result CompletedProcess * FS;
  (** Lines 197-211: [json.loads] of ffprobe's output and the scan for the
      first stream whose [codec_type] is ["audio"]. *)
  audio_stream_of_json : string -> result (option AudioInfo);
  (** [os.makedirs(d)] for a path that is not on disk: whether the
      operating system raises. *)
  os_makedirs : string -> result unit;
  (** [VideoFileClip], [None] when neither import of lines 12-18 worked.
      The constructor raises, or returns whether the clip has an audio
      track. *)
  VideoFileClip : option (string -> FS -> result bool);
  (** [audio.write_audiofile(path, verbose=False, logger=None)] *)
  write_audiofile : AudioFileClip -> string -> FS -> result unit * FS;
  (** [AudioSegment.from_wav(path)] *)
  from_wav : string -> FS -> result AudioSegment;
  (** [segment.export(path, format=..., bitrate=...)] *)
  export : AudioSegment -> string -> string -> option string -> FS
           -> result unit * FS
}.

(** ** The monad of the program: state and exceptions *)

Definition M (A : Type) : Type := World -> result A * World.

Definition ret {A} (a : A) : M A := fun w => (Ret a, w).

Definition raise {A} (e : exn) : M A := fun w => (Raise e, w).

Definition bind {A B} (m : M A) (k : A -> M B) : M B :=
  fun w =>
    match m w with
    | (Ret a, w') => k a w'
    | (Raise e, w') => (Raise e, w')
    end.

(** [try: body except Exception as e: handler]: what [body] did to the
    world before it raised stays done. *)
Definition try_except {A} (body : M A) (handler : exn -> M A) : M A :=
  fun w =>
    match body w with
    | (Ret a, w') => (Ret a, w')
    | (Raise e, w') => handler e w'
    end.

Notation "x <- m ;; k" := (bind m (fun x => k))
  (at level 100, m at next level, right associativity).
Notation "m ;;; k" := (bind m (fun _ => k))
  (at level 100, right associativity).

(** [st.session_state.log_messages.append(entry)] *)
Definition log (entry : LogEntry) : M unit := fun w => (Ret tt, append_log entry w).

Definition os_path_exists (p : string) : M bool :=
  fun w => (Ret (path_exists (fs w) p), w).

(** [os.remove(p)] *)
Definition os_remove (E : Externals) (p : string) : M unit :=
  fun w =>
    match fs w !! p with
    | Some (File _) =>
        match os_refuses E Remove p (fs w) with
        | Some e => (Raise e, w)
        | None => (Ret tt, upd_fs (delete p) w)
        end
    | Some Directory => (Raise (IsADirectoryError (MsgText p)), w)
    | None => (Raise (FileNotFoundError (MsgText p)), w)
    end.

(** [os.rename(src, dst)]: a file replaces a file, a directory a
    directory; a file does not replace a directory, nor a directory a
    file. *)
Definition os_rename (E : Externals) (src dst : string) : M unit :=
  fun w =>
    match fs w !! src, fs w !! dst with
    | None, _ => (Raise (FileNotFoundError (MsgText src)), w)
    | Some (File _), Some Directory =>
        (Raise (IsADirectoryError (MsgText dst)), w)
    | Some Directory, Some (File _) =>
        (Raise (OtherException (MsgText dst)), w)
    | Some n, _ =>
        match os_refuses E Rename src (fs w) with
        | Some e => (Raise e, w)
        | None =>
            (Ret tt, upd_fs (fun files => <[dst := n]> (delete src files)) w)
        end
    end.

(** [with open(p, "rb") as f: f.read()] *)
Definition read_file (E : Externals) (p : string) : M bytes :=
  fun w =>
    match fs w !! p with
    | Some (File data) =>
        match os_refuses E OpenRead p (fs w) with
        | Some e => (Raise e, w)
        | None => (Ret data, w)
        end
    | Some Directory => (Raise (IsADirectoryError (MsgText p)), w)
    | None => (Raise (FileNotFoundError (MsgText p)), w)
    end.

(** A call that only reads the file system. *)
Definition call_pure {A} (f : FS -> result A) : M A :=
  fun w => (f (fs w), w).

(** A call that may also change the file system. *)
Definition call_io {A} (f : FS -> result A * FS) : M A :=
  fun w => let '(r, files) := f (fs w) in (r, upd_fs (fun _ => files) w).

(** [x in l] for a list of strings. *)
Definition py_in (x : string) (l : list string) : bool :=
  existsb (String.eqb x) l.

(** [os.path.getsize(p)] *)
Definition os_path_getsize (E : Externals) (p : string) : M N :=
  fun w =>
    match fs w !! p with
    | Some (File data) => (Ret (N.of_nat (length data)), w)
    | Some Directory => (Ret (directory_size E p (fs w)), w)
    | None => (Raise (FileNotFoundError (MsgText p)), w)
    end.

(** [with open(p, "wb") as f: f.write(data)] *)
Definition write_file (E : Externals) (p : string) (data : bytes) : M unit :=
  fun w =>
    match fs w !! p with
    | Some Directory => (Raise (IsADirectoryError (MsgText p)), w)
    | _ =>
        match open_write_error E p data (fs w) with
        | Some (e, files) => (Raise e, upd_fs (fun _ => files) w)
        | None => (Ret tt, upd_fs (insert p (File data)) w)
        end
    end.

(** [os.makedirs(d)] for a path [d] that is not on disk. *)
Definition makedirs (E : Externals) (d : string) : M unit :=
  fun w =>
    match os_makedirs E d with
    | Ret _ => (Ret tt, upd_fs (insert d Directory) w)
    | Raise e => (Raise e, w)
    end.

(** ** class AudioExtractor *)

(** Lines 27-30. *)
Definition supported_video_formats : list string :=
  [".mp4"; ".avi"; ".mkv"; ".mov"; ".wmv"; ".flv"; ".webm"; ".m4v"].

Definition supported_audio_formats : list string :=
  [".mp3"; ".flac"; ".wav"; ".aac"; ".ogg"].

(** [Path(p).suffix.lower()] *)
Definition extension (E : Externals) (p : string) : string :=
  PyStr.lower (unicode_lower E) (PosixPath.suffix p).

(** Lines 32-41. *)
Definition validate_input_file (E : Externals) (input_path : string) : M bool :=
  found <- os_path_exists input_path ;;
  if negb found then raise (FileNotFoundError (MsgInputNotFound input_path))
  else
    let file_ext := extension E input_path in
    if negb (py_in file_ext supported_video_formats)
    then raise (ValueError (MsgUnsupportedVideo file_ext))
    else ret true.

(** Lines 43-49. *)
Definition validate_output_format (E : Externals) (output_path : string)
  : M string :=
  let file_ext := extension E output_path in
  if negb (py_in file_ext supported_audio_formats)
  then raise (ValueError (MsgUnsupportedAudio file_ext))
  else ret file_ext.

(** Lines 56-111: the argument list handed to ffmpeg. *)
Definition ffmpeg_cmd (input_path output_path format_type : string)
  : list string :=
  if String.eqb format_type ".mp3" then
    ["ffmpeg"; "-i"; input_path; "-vn"; "-acodec"; "libmp3lame";
     "-ab"; "320k"; "-ar"; "44100"; "-ac"; "2"; "-y"; output_path]
  else if String.eqb format_type ".flac" then
    ["ffmpeg"; "-i"; input_path; "-vn"; "-acodec"; "flac";
     "-compression_level"; "8"; "-y"; output_path]
  else if String.eqb format_type ".wav" then
    ["ffmpeg"; "-i"; input_path; "-vn"; "-acodec"; "pcm_s16le";
     "-y"; output_path]
  else
    ["ffmpeg"; "-i"; input_path; "-vn"; "-acodec"; "copy";
     "-y"; output_path].

(** Lines 184-193: the argument list handed to ffprobe. *)
Definition ffprobe_cmd (file_path : string) : list string :=
  ["ffprobe"; "-v"; "quiet"; "-print_format"; "json";
   "-show_format"; "-show_streams"; file_path].

(** The temporary file of line 137. *)
Definition temp_wav_of (output_path : string) : string :=
  PyStr.replace output_path (PosixPath.suffix output_path) "_temp.wav".

(** Lines 240-245 and 260-265. *)
Definition log_audio_info (k : info_kind) (info : AudioInfo) : M unit :=
  log (LogInfoHeader k) ;;;
  log (LogCodec (codec info)) ;;;
  log (LogSampleRate (sample_rate info)) ;;;
  log (LogChannels (channels info)) ;;;
  log (LogBitRate (bit_rate info)) ;;;
  log (LogDuration (duration info)).

(** The reader numbered [id] ends. *)
Definition remove_handle (id : nat) (l : list handle) : list handle :=
  List.filter (fun h => negb (Nat.eqb (handle_id h) id)) l.

(** [video.close()]: MoviePy closes the video reader of the clip and the
    reader of its audio track. *)
Definition video_close (video : VideoClip) : M unit :=
  fun w =>
    (Ret tt,
     upd_handles
       (fun l =>
          let l' := remove_handle (video_reader video) l in
          match audio video with
          | Some a => remove_handle (audio_reader a) l'
          | None => l'
          end)
       w).

(** [audio.close()]; [audio] is [None] for a clip without audio track. *)
Definition audio_close (a : option AudioFileClip) : M unit :=
  match a with
  | None => raise (AttributeError (MsgText "close"))
  | Some clip =>
      fun w => (Ret tt, upd_handles (remove_handle (audio_reader clip)) w)
  end.

Section Program.

Variable E : Externals.

(** [VideoFileClip(input_path)]: the clip starts a video reader and, for
    a clip with an audio track, an audio reader; they stay open until they
    are closed. *)
Definition open_video (input_path : string) : M VideoClip :=
  match VideoFileClip E with
  | None => raise (TypeError (MsgText "VideoFileClip"))
  | Some construct =>
      fun w =>
        match construct input_path (fs w) with
        | Ret has_audio =>
            let id := fresh_handle (open_handles w) in
            let track :=
              if has_audio
              then Some {| audio_source := input_path; audio_reader := S id |}
              else None in
            (Ret {| video_source := input_path; video_reader := id;
                    audio := track |},
             upd_handles
               (fun l => l ++ VideoReader id input_path
                           :: match track with
                              | Some a => [AudioReader (audio_reader a)
                                             (audio_source a)]
                              | None => []
                              end)
               w)
        | Raise e => (Raise e, w)
        end
  end.

(** [audio.write_audiofile(temp_wav, ...)] *)
Definition audio_write_audiofile (a : option AudioFileClip) (path : string)
  : M unit :=
  match a with
  | None => raise (AttributeError (MsgText "write_audiofile"))
  | Some clip => call_io (write_audiofile E clip path)
  end.

(** Lines 51-125. *)
Definition extract_audio_with_ffmpeg
  (input_path output_path format_type : string) : M bool :=
  try_except
    (let cmd := ffmpeg_cmd input_path output_path format_type in
     log (LogFfmpegCommand (PyStr.join " " cmd)) ;;;
     result <- call_io (subprocess_run E cmd) ;;
     if negb (returncode result =? 0)%Z then
       log (LogFfmpegError (stderr result)) ;;;
       ret false
     else
       log (LogFfmpegDone output_path) ;;;
       ret true)
    (fun e => log (LogFfmpegException e) ;;; ret false).

(** Lines 157-177. *)
Definition convert_audio_format (input_audio_path output_path : string)
  : M bool :=
  try_except
    (segment <- call_pure (from_wav E input_audio_path) ;;
     let output_format := PyStr.slice_from (PosixPath.suffix output_path) 1 in
     (if String.eqb output_format "mp3" then
        call_io (export E segment output_path "mp3" (Some "320k"))
      else if String.eqb output_format "flac" then
        call_io (export E segment output_path "flac" None)
      else
        call_io (export E segment output_path output_format None)) ;;;
     ret true)
    (fun e => log (LogConvertException e) ;;; ret false).

(** Lines 127-155. *)
Definition extract_audio_with_moviepy (input_path output_path : string)
  : M bool :=
  try_except
    (log LogMoviepyStart ;;;
     video <- open_video input_path ;;
     let audio := audio video in
     let temp_wav := temp_wav_of output_path in
     audio_write_audiofile audio temp_wav ;;;
     (if negb (PyStr.endswith output_path ".wav") then
        _ <- convert_audio_format temp_wav output_path ;;
        os_remove E temp_wav
      else
        os_rename E temp_wav output_path) ;;;
     video_close video ;;;
     audio_close audio ;;;
     log (LogMoviepyDone output_path) ;;;
     ret true)
    (fun e => log (LogMoviepyException e) ;;; ret false).

(** Lines 179-215. *)
Definition get_audio_info (file_path : string) : M (option AudioInfo) :=
  try_except
    (result <- call_io (subprocess_run E (ffprobe_cmd file_path)) ;;
     if (returncode result =? 0)%Z then
       call_pure (fun _ => audio_stream_of_json E (stdout result))
     else ret None)
    (fun e => log (LogProbeException e) ;;; ret None).

(** Lines 223-245 of [extract_audio]: validation, output directory,
    log of the source.  Returns [output_format]. *)
Definition extract_prelude (input_path output_path : string) : M string :=
  _ <- validate_input_file E input_path ;;
  output_format <- validate_output_format E output_path ;;
  let output_dir := PosixPath.dirname output_path in
  dir_exists <- os_path_exists output_dir ;;
  (if negb (String.eqb output_dir "") && negb dir_exists
   then makedirs E output_dir
   else ret tt) ;;;
  log (LogInputFile input_path) ;;;
  log (LogOutputFile output_path) ;;;
  log (LogOutputFormat output_format) ;;;
  video_info <- get_audio_info input_path ;;
  (match video_info with
   | Some info => log_audio_info Original info
   | None => ret tt
   end) ;;;
  ret output_format.

(** Lines 246-254: ffmpeg first, MoviePy when ffmpeg failed.  Returns
    [success]. *)
Definition extract_attempts (input_path output_path output_format : string)
  : M bool :=
  success <- extract_audio_with_ffmpeg input_path output_path output_format ;;
  if negb success then
    log LogRetryWithMoviepy ;;;
    extract_audio_with_moviepy input_path output_path
  else ret success.

(** Lines 256-275: the verdict. *)
Definition extract_verdict (output_path : string) (success : bool) : M bool :=
  out_exists <- os_path_exists output_path ;;
  if success && out_exists then
    extracted_info <- get_audio_info output_path ;;
    (match extracted_info with
     | Some info => log_audio_info Extracted info
     | None => ret tt
     end) ;;;
    file_size <- os_path_getsize E output_path ;;
    log (LogFileSize file_size) ;;;
    log LogExtractionSucceeded ;;;
    ret true
  else
    log LogExtractionFailed ;;;
    ret false.

(** Lines 217-279. *)
Definition extract_audio (input_path output_path : string) : M bool :=
  try_except
    (output_format <- extract_prelude input_path output_path ;;
     success <- extract_attempts input_path output_path output_format ;;
     extract_verdict output_path success)
    (fun e => log (LogError e) ;;; ret false).

End Program.

(** ** The bundler *)

(** A member of the archive: the name it is stored under and its data.
    The DEFLATE encoding of the archive is not modelled; the archive is
    the list of its members in the order they were written. *)
Record ZipEntry : Type := {
  arcname : string;
  content : bytes
}.

(** The member name [ZipInfo.from_file] makes of
    [os.path.basename(file_path)]: [os.path.normpath] leaves a name
    without slash as it is, but for the empty name, which becomes ["."]. *)
Definition zip_arcname (file_path : string) : string :=
  let base := PosixPath.basename file_path in
  if String.eqb base "" then "." else base.

(** [zip_file.write(file_path, os.path.basename(file_path))] for a path
    that is on disk: a regular file is stored with its data, a directory
    as an empty member whose name ends in a slash. *)
Definition zip_write (E : Externals) (file_path : string) : M ZipEntry :=
  fun w =>
    match zip_write_error E file_path (fs w) with
    | Some e => (Raise e, w)
    | None =>
        match fs w !! file_path with
        | Some (File data) =>
            (Ret {| arcname := zip_arcname file_path; content := data |}, w)
        | Some Directory =>
            (Ret {| arcname := zip_arcname file_path +:+ "/"; content := [] |}, w)
        | None => (Raise (FileNotFoundError (MsgText file_path)), w)
        end
    end.

(** Lines 286-288: the loop of [create_zip_file]. *)
Fixpoint zip_write_all (E : Externals) (file_paths : list string)
  (zip_file : list ZipEntry) : M (list ZipEntry) :=
  match file_paths with
  | [] => ret zip_file
  | file_path :: rest =>
      found <- os_path_exists file_path ;;
      if found then
        member <- zip_write E file_path ;;
        zip_write_all E rest (zip_file ++ [member])
      else zip_write_all E rest zip_file
  end.

(** Lines 282-290. *)
Definition create_zip_file (E : Externals) (file_paths : list string)
  (zip_name : string) : M (list ZipEntry) :=
  zip_write_all E file_paths [].

(** ** The page: batch loop and download section *)

(** What [st.file_uploader] hands over for one file. *)
Record UploadedFile : Type := {
  name : string;
  getbuffer : bytes
}.

Inductive DownloadOption : Type :=
| IndividualDownload     (* "개별 다운로드" *)
| ZipDownload.           (* "ZIP 파일로 일괄 다운로드" *)

(** The widgets of lines 310-349. *)
Record Settings : Type := {
  output_format : string;
  download_option : DownloadOption;
  filename_prefix : string
}.

(** An [st.download_button]; the one of line 423 has a widget key. *)
Inductive DownloadButton : Type :=
| FileButton (file_name : string) (data : bytes) (mime : string) (key : string)
| ZipButton (file_name : string) (zip_data : list ZipEntry) (files : nat).

(** Line 428. *)
Definition download_key (output_path : string) : string :=
  "download_" +:+ PosixPath.name output_path.

(** Line 371. *)
Definition input_video_path_of (uploaded_file : UploadedFile) : string :=
  PosixPath.join "/tmp" (name uploaded_file).

(** Lines 376-382. *)
Definition output_audio_path_of (cfg : Settings) (uploaded_file : UploadedFile)
  : string :=
  let base_name := PosixPath.stem (name uploaded_file) in
  let output_audio_name :=
    if negb (String.eqb (filename_prefix cfg) "")
    then filename_prefix cfg +:+ "_" +:+ base_name +:+ "." +:+ output_format cfg
    else base_name +:+ "." +:+ output_format cfg in
  PosixPath.join "/tmp" output_audio_name.

Section Page.

Variable E : Externals.
Variable cfg : Settings.

(** Lines 371-373: the upload is staged under /tmp. *)
Definition stage_input (uploaded_file : UploadedFile) : M unit :=
  write_file E (input_video_path_of uploaded_file) (getbuffer uploaded_file).

(** Lines 384-394: extraction, then the result list and the tally. *)
Definition extract_and_record (i total_files : nat)
  (uploaded_file : UploadedFile) (successful_extractions : nat) : M nat :=
  let input_video_path := input_video_path_of uploaded_file in
  let output_audio_path := output_audio_path_of cfg uploaded_file in
  log (LogItemHeader (i + 1) total_files (name uploaded_file)) ;;;
  success <- extract_audio E input_video_path output_audio_path ;;
  if success then
    (fun w => (Ret tt, append_output_path output_audio_path w)) ;;;
    log (LogItemDone (name uploaded_file)) ;;;
    ret (successful_extractions + 1)
  else
    log (LogItemFailed (name uploaded_file)) ;;;
    ret successful_extractions.

(** Lines 397-398. *)
Definition unstage_input (uploaded_file : UploadedFile) : M unit :=
  let input_video_path := input_video_path_of uploaded_file in
  found <- os_path_exists input_video_path ;;
  if found then os_remove E input_video_path else ret tt.

(** Lines 368-401: one turn of the loop. *)
Definition process_item (i total_files : nat) (uploaded_file : UploadedFile)
  (successful_extractions : nat) : M nat :=
  stage_input uploaded_file ;;;
  n <- extract_and_record i total_files uploaded_file successful_extractions ;;
  unstage_input uploaded_file ;;;
  ret n.

(** Lines 367-401: [for i, uploaded_file in enumerate(uploaded_files)]. *)
Fixpoint batch_loop (i total_files : nat) (uploaded_files : list UploadedFile)
  (successful_extractions : nat) : M nat :=
  match uploaded_files with
  | [] => ret successful_extractions
  | uploaded_file :: rest =>
      n <- process_item i total_files uploaded_file successful_extractions ;;
      batch_loop (i + 1) total_files rest n
  end.

(** Lines 354-404: a batch run.  Returns [successful_extractions]. *)
Definition run_batch (uploaded_files : list UploadedFile) : M nat :=
  (fun w => (Ret tt, reset_session w)) ;;;
  n <- batch_loop 0 (length uploaded_files) uploaded_files 0 ;;
  (fun w => (Ret tt, set_processing_complete true w)) ;;;
  ret n.

(** Lines 352-411: the button.  [None] when nothing was uploaded. *)
Definition on_extract_button (uploaded_files : list UploadedFile)
  : M (option nat) :=
  match uploaded_files with
  | [] => ret None
  | _ => n <- run_batch uploaded_files ;; ret (Some n)
  end.

(** Lines 420-429.  [keys] are the widget keys already on the page:
    Streamlit raises when a key is used a second time. *)
Fixpoint individual_buttons (paths : list string) (keys : list string)
  : M (list DownloadButton) :=
  match paths with
  | [] => ret []
  | output_path :: rest =>
      found <- os_path_exists output_path ;;
      if found then
        data <- read_file E output_path ;;
        let key := download_key output_path in
        if py_in key keys then raise (DuplicateWidgetID (MsgText key))
        else
          buttons <- individual_buttons rest (key :: keys) ;;
          ret (FileButton (PosixPath.name output_path) data
                          ("audio/" +:+ output_format cfg) key :: buttons)
      else individual_buttons rest keys
  end.

(** Lines 432-442. *)
Definition zip_button : M (list DownloadButton) :=
  fun w =>
    let existing_files :=
      List.filter (path_exists (fs w)) (output_audio_paths w) in
    match existing_files with
    | [] => (Ret [], w)
    | _ =>
        let zip_name := "extracted_audio_" +:+ output_format cfg +:+ ".zip" in
        (zip_data <- create_zip_file E existing_files zip_name ;;
         ret [ZipButton zip_name zip_data (length existing_files)]) w
    end.

(** Lines 414-442: the download section of a page render. *)
Definition download_section : M (list DownloadButton) :=
  fun w =>
    if processing_complete w
       && negb (bool_decide (output_audio_paths w = []))
    then
      match download_option cfg with
      | IndividualDownload => individual_buttons (output_audio_paths w) [] w
      | ZipDownload => zip_button w
      end
    else (Ret [], w).

End Page.

(** ** The format table of the specification *)

(** The highest compression level of ffmpeg's FLAC encoder, whose
    [-compression_level] option takes the values 0 to 12. *)
Definition flac_max_compression_level : string := "12".

(** Codec and extra parameters per format, as the table of the
    specification gives them: MP3 through the LAME encoder at 320 kbps,
    44.1 kHz and 2 channels; FLAC at the maximum compression level; WAV
    as 16-bit little-endian PCM; anything else as a copy of the stream. *)
Definition spec_profile (format_type : string) : string * list string :=
  if String.eqb format_type ".mp3" then
    ("libmp3lame", ["-ab"; "320k"; "-ar"; "44100"; "-ac"; "2"])
  else if String.eqb format_type ".flac" then
    ("flac", ["-compression_level"; flac_max_compression_level])
  else if String.eqb format_type ".wav" then
    ("pcm_s16le", [])
  else
    ("copy", []).

(** The command of the specification: read the input, drop the video
    stream ([-vn]), encode with the profile, overwrite the output ([-y]). *)
Definition spec_command (input_path output_path format_type : string)
  : list string :=
  let '(audio_codec, extra) := spec_profile format_type in
  ["ffmpeg"; "-i"; input_path; "-vn"; "-acodec"; audio_codec]
    ++ extra ++ ["-y"; output_path].

(** ** Properties of computations *)

(** [m] never raises. *)
Definition total {A} (m : M A) : Prop :=
  forall w, exists a w', m w = (Ret a, w').

(** A relation between the world before and after that every step on the
    file system, the handles and the log respects. *)
Class Frame (R : World -> World -> Prop) : Prop := {
  frame_refl : forall w, R w w;
  frame_trans : forall a b c, R a b -> R b c -> R a c;
  frame_fs : forall f w, R w (upd_fs f w);
  frame_handles : forall f w, R w (upd_handles f w);
  frame_log : forall e w, R w (append_log e w)
}.

(** [m] respects [R] whatever it returns. *)
Definition frames (R : World -> World -> Prop) {A} (m : M A) : Prop :=
  forall w, R w (snd (m w)).

(** The log only grows. *)
Definition log_grows (w w' : World) : Prop :=
  exists l, log_messages w' = log_messages w ++ l.

(** The result list is untouched. *)
Definition same_outputs (w w' : World) : Prop :=
  output_audio_paths w' = output_audio_paths w.

(** The completion flag is untouched. *)
Definition same_completion (w w' : World) : Prop :=
  processing_complete w' = processing_complete w.

(** The final ffprobe call leaves the output file in place. *)
Definition probe_keeps (E : Externals) (output_path : string) : Prop :=
  forall files,
    path_exists files output_path = true ->
    path_exists (snd (subprocess_run E (ffprobe_cmd output_path) files))
                output_path = true.

(** The archive member [e] holds what is at [p]: a regular file under
    its member name with its data, a directory as an empty member whose
    name ends in a slash. *)
Definition stored_as (files : FS) (p : string) (e : ZipEntry) : Prop :=
  match files !! p with
  | Some (File data) => arcname e = zip_arcname p /\ content e = data
  | Some Directory => arcname e = zip_arcname p +:+ "/" /\ content e = []
  | None => False
  end.



(** ** Concrete runs *)

Module Scenario.

Definition clip_data : bytes := [Byte.x00; Byte.x00; Byte.x00; Byte.x18].
Definition notes_data : bytes := [Byte.x68; Byte.x69].
Definition partial_wav : bytes := [Byte.x52; Byte.x49; Byte.x46; Byte.x46].
Definition full_wav : bytes :=
  [Byte.x52; Byte.x49; Byte.x46; Byte.x46; Byte.x57; Byte.x41; Byte.x56; Byte.x45].
Definition mp3_data : bytes := [Byte.x49; Byte.x44; Byte.x33].

(** A fresh session over a disk with the directory /tmp and the regular
    files of [files]. *)
Definition make_world (files : gmap string bytes) : World :=
  {| fs := <[ "/tmp" := Directory ]> (File <$> files);
     open_handles := []; log_messages := [];
     output_audio_paths := []; processing_complete := false |}.

(** Nothing under /tmp. *)
Definition empty_disk : World := make_world ∅.

(** An upload staged as /tmp/clip.mp4. *)
Definition staged_clip : World := make_world {[ "/tmp/clip.mp4" := clip_data ]}.

(** A text file at /tmp/notes.txt. *)
Definition staged_notes : World := make_world {[ "/tmp/notes.txt" := notes_data ]}.

Definition decode_error : exn := OtherException (MsgText "decode").

(** ffmpeg and ffprobe exit with status 1 and touch nothing. *)
Definition failing_tool (cmd : list string) (files : FS)
  : result CompletedProcess * FS :=
  (Ret {| returncode := 1; stdout := ""; stderr := "Invalid data" |}, files).

(** ffmpeg creates the (empty) output file, then exits with status 1;
    ffprobe exits with status 1. *)
Definition truncating_tool (cmd : list string) (files : FS)
  : result CompletedProcess * FS :=
  match cmd with
  | "ffmpeg" :: _ =>
      (Ret {| returncode := 1; stdout := ""; stderr := "Invalid data" |},
       <[ List.last cmd "" := File [] ]> files)
  | _ => (Ret {| returncode := 1; stdout := ""; stderr := "" |}, files)
  end.

(** ffmpeg writes the output and exits with status 0; ffprobe exits
    with status 1. *)
Definition working_tool (cmd : list string) (files : FS)
  : result CompletedProcess * FS :=
  match cmd with
  | "ffmpeg" :: _ =>
      (Ret {| returncode := 0; stdout := ""; stderr := "" |},
       <[ List.last cmd "" := File mp3_data ]> files)
  | _ => (Ret {| returncode := 1; stdout := ""; stderr := "" |}, files)
  end.

(** No ffmpeg binary to run: [subprocess.run] raises. *)
Definition missing_tool (cmd : list string) (files : FS)
  : result CompletedProcess * FS :=
  (Raise (FileNotFoundError (MsgText "ffmpeg")), files).

Definition clip_with_audio (path : string) (files : FS) : result bool :=
  Ret true.

Definition silent_clip (path : string) (files : FS) : result bool :=
  Ret false.

Definition unreadable_clip (path : string) (files : FS) : result bool :=
  Raise decode_error.

(** The decoder fails after the first bytes of the file were written. *)
Definition write_then_fail (a : AudioFileClip) (path : string) (files : FS)
  : result unit * FS :=
  (Raise decode_error, <[ path := File partial_wav ]> files).

Definition write_wav (a : AudioFileClip) (path : string) (files : FS)
  : result unit * FS :=
  (Ret tt, <[ path := File full_wav ]> files).

Definition from_wav_ok (path : string) (files : FS) : result AudioSegment :=
  match files !! path with
  | Some (File data) => Ret {| samples := data |}
  | Some Directory => Raise (IsADirectoryError (MsgText path))
  | None => Raise (FileNotFoundError (MsgText path))
  end.

Definition from_wav_fails (path : string) (files : FS) : result AudioSegment :=
  Raise (OtherException (MsgText "CouldntDecodeError")).

Definition export_ok (s : AudioSegment) (path fmt : string)
  (bitrate : option string) (files : FS) : result unit * FS :=
  (Ret tt, <[ path := File (samples s) ]> files).

(** pydub opens the output file, which creates it, and then finds no
    encoder to run. *)
Definition export_fails (s : AudioSegment) (path fmt : string)
  (bitrate : option string) (files : FS) : result unit * FS :=
  (Raise (FileNotFoundError (MsgText "ffmpeg")), <[ path := File [] ]> files).

(** A machine on which the operating system and [zipfile] refuse nothing,
    with the given tools.  The runs below use ASCII names only, so
    [unicode_lower] is not consulted. *)
Definition machine
  (run : list string -> FS -> result CompletedProcess * FS)
  (clip : option (string -> FS -> result bool))
  (write : AudioFileClip -> string -> FS -> result unit * FS)
  (read : string -> FS -> result AudioSegment)
  (encode : AudioSegment -> string -> string -> option string -> FS
            -> result unit * FS)
  : Externals :=
  {| unicode_lower := fun s => s;
     open_write_error := fun _ _ _ => None;
     os_refuses := fun _ _ _ => None;
     directory_size := fun _ _ => 4096%N;
     zip_write_error := fun _ _ => None;
     subprocess_run := run;
     audio_stream_of_json := fun _ => Ret None;
     os_makedirs := fun _ => Ret tt;
     VideoFileClip := clip;
     write_audiofile := write;
     from_wav := read;
     export := encode |}.

(** ffmpeg fails; MoviePy opens the clip, and the audio decoder breaks
    while the temporary WAV file is being written. *)
Definition broken_audio : Externals :=
  machine failing_tool (Some clip_with_audio) write_then_fail from_wav_ok
    export_ok.

(** ffmpeg fails; MoviePy opens a clip that has no audio track. *)
Definition silent_video : Externals :=
  machine failing_tool (Some silent_clip) write_wav from_wav_ok export_ok.

(** ffmpeg is not installed: the primary extractor and the probes fail.
    MoviePy (which brings its own decoder) writes the temporary WAV file;
    pydub reads it and then finds no encoder for the export. *)
Definition broken_converter : Externals :=
  machine missing_tool (Some clip_with_audio) write_wav from_wav_ok
    export_fails.

(** ffmpeg leaves an empty output file and fails; MoviePy cannot open
    the clip. *)
Definition truncated_output : Externals :=
  machine truncating_tool (Some unreadable_clip) write_then_fail
    from_wav_fails export_ok.

(** ffmpeg fails and MoviePy could not be imported. *)
Definition no_moviepy : Externals :=
  machine failing_tool None write_wav from_wav_ok export_ok.

(** Everything works. *)
Definition healthy : Externals :=
  machine working_tool (Some clip_with_audio) write_wav from_wav_ok export_ok.

(** The machine [E] with other refusals of [open] and of [zipfile]. *)
Definition refusing (E : Externals)
  (write_error : string -> bytes -> FS -> option (exn * FS))
  (zip_error : string -> FS -> option exn) : Externals :=
  {| unicode_lower := unicode_lower E;
     open_write_error := write_error;
     os_refuses := os_refuses E;
     directory_size := directory_size E;
     zip_write_error := zip_error;
     subprocess_run := subprocess_run E;
     audio_stream_of_json := audio_stream_of_json E;
     os_makedirs := os_makedirs E;
     VideoFileClip := VideoFileClip E;
     write_audiofile := write_audiofile E;
     from_wav := from_wav E;
     export := export E |}.

(** Everything works, but /tmp/old.mp3 carries a time stamp of 1970,
    which [zipfile] does not store. *)
Definition old_file_error : exn :=
  ValueError (MsgText "ZIP does not support timestamps before 1980").

Definition with_old_file : Externals :=
  refusing healthy (fun _ _ _ => None)
    (fun p _ => if String.eqb p "/tmp/old.mp3" then Some old_file_error
                else None).

(** Everything works, on a file system whose names have at most 255
    bytes: [open] refuses a longer one and creates nothing. *)
Definition name_too_long : exn := OtherException (MsgText "File name too long").

Definition limited_names : Externals :=
  refusing healthy
    (fun p _ files =>
       if (255 <? String.length (PosixPath.basename p))%nat
       then Some (name_too_long, files) else None)
    (fun _ _ => None).

(** A name of 256 bytes. *)
Definition long_name : string :=
  String.concat "" (List.repeat "a" 252) +:+ ".mp4".

Definition long_upload : UploadedFile :=
  {| name := long_name; getbuffer := clip_data |}.

Definition mp3_zip : Settings :=
  {| output_format := "mp3"; download_option := ZipDownload;
     filename_prefix := "" |}.

Definition mp3_individual : Settings :=
  {| output_format := "mp3"; download_option := IndividualDownload;
     filename_prefix := "" |}.

Definition clip_upload : UploadedFile :=
  {| name := "clip.mp4"; getbuffer := clip_data |}.

Definition notes_upload : UploadedFile :=
  {| name := "notes.txt"; getbuffer := notes_data |}.

End Scenario.

(** ** Predicates on strings and buttons *)

(** [c not in s] *)
Fixpoint lacks (c : ascii) (s : string) : bool :=
  match s with
  | EmptyString => true
  | String a r => negb (Ascii.eqb a c) && lacks c r
  end.

(** [old] occurs in [s] at some position. *)
Definition occurs_in (old s : string) : Prop :=
  exists k, String.prefix old (PyStr.drop k s) = true.

(** The formats the select box of lines 310-314 offers. *)
Definition offered_formats : list string := ["mp3"; "flac"; "wav"; "aac"; "ogg"].



(** * Proofs *)

(** ** Path and string examples *)

Example suffix_upper u :
  PyStr.lower u (PosixPath.suffix "/tmp/Clip.Final.MP4") = ".mp4".
Proof. reflexivity. Qed.

(** The extension of a name that has a character outside ASCII (here
    U+212A, the Kelvin sign, in UTF-8) is what the Unicode case mapping
    makes of it. *)
Example suffix_kelvin_sign E :
  let kelvin := String "226" (String "132" (String "170" "")) in
  extension E ("/tmp/clip.m" +:+ kelvin +:+ "v")
  = unicode_lower E (".m" +:+ kelvin +:+ "v").
Proof. reflexivity. Qed.

Example suffix_hidden : PosixPath.suffix "/tmp/.bashrc" = "".
Proof. reflexivity. Qed.

Example suffix_trailing_dot : PosixPath.suffix "/tmp/clip." = "".
Proof. reflexivity. Qed.

Example stem_two_dots : PosixPath.stem "my.holiday.mp4" = "my.holiday".
Proof. reflexivity. Qed.

Example basename_tmp : PosixPath.basename "/tmp/song.mp3" = "song.mp3".
Proof. reflexivity. Qed.

Example dirname_tmp : PosixPath.dirname "/tmp/song.mp3" = "/tmp".
Proof. reflexivity. Qed.

Example dirname_bare : PosixPath.dirname "song.mp3" = "".
Proof. reflexivity. Qed.

Example join_tmp : PosixPath.join "/tmp" "clip.mp4" = "/tmp/clip.mp4".
Proof. reflexivity. Qed.

Example join_absolute : PosixPath.join "/tmp" "/etc/clip.mp4" = "/etc/clip.mp4".
Proof. reflexivity. Qed.

Example join_empty_name : PosixPath.join "/tmp" "" = "/tmp/".
Proof. reflexivity. Qed.

Example replace_suffix :
  PyStr.replace "/tmp/song.mp3" ".mp3" "_temp.wav" = "/tmp/song_temp.wav".
Proof. reflexivity. Qed.

Example replace_every_occurrence :
  PyStr.replace "/tmp/a.mp3.mp3" ".mp3" "_temp.wav" = "/tmp/a_temp.wav_temp.wav".
Proof. reflexivity. Qed.

Example replace_empty_pattern : PyStr.replace "ab" "" "-" = "-a-b-".
Proof. reflexivity. Qed.

(** ** Laws of the monad *)

Lemma bind_Ret_inv {A B} (m : M A) (k : A -> M B) w b w' :
  bind m k w = (Ret b, w') ->
  exists a w1, m w = (Ret a, w1) /\ k a w1 = (Ret b, w').
Proof.
  unfold bind. destruct (m w) as [[a | e] w1]; intros Hk.
  - exists a, w1. split; [reflexivity | exact Hk].
  - discriminate.
Qed.


Lemma bind_Ret {A B} (m : M A) (k : A -> M B) w a w1 :
  m w = (Ret a, w1) -> bind m k w = k a w1.
Proof. unfold bind. intros ->. reflexivity. Qed.

Lemma bind_Raise {A B} (m : M A) (k : A -> M B) w e w1 :
  m w = (Raise e, w1) -> bind m k w = (Raise e, w1).
Proof. unfold bind. intros ->. reflexivity. Qed.

Lemma try_except_Ret {A} (body : M A) (handler : exn -> M A) w a w1 :
  body w = (Ret a, w1) -> try_except body handler w = (Ret a, w1).
Proof. unfold try_except. intros ->. reflexivity. Qed.

Lemma try_except_Raise {A} (body : M A) (handler : exn -> M A) w e w1 :
  body w = (Raise e, w1) -> try_except body handler w = handler e w1.
Proof. unfold try_except. intros ->. reflexivity. Qed.

Lemma total_ret {A} (a : A) : total (ret a).
Proof. intros w. exists a, w. reflexivity. Qed.

Lemma total_log entry : total (log entry).
Proof. intros w. eexists _, _. reflexivity. Qed.

Lemma total_bind {A B} (m : M A) (k : A -> M B) :
  total m -> (forall a, total (k a)) -> total (bind m k).
Proof.
  intros Hm Hk w. destruct (Hm w) as (a & w1 & Ha).
  destruct (Hk a w1) as (b & w2 & Hb).
  exists b, w2. rewrite (bind_Ret _ _ _ _ _ Ha). exact Hb.
Qed.

(** A [try] whose handler cannot raise lets nothing escape. *)
Lemma total_try_except {A} (body : M A) (handler : exn -> M A) :
  (forall e, total (handler e)) -> total (try_except body handler).
Proof.
  intros Hh w. unfold try_except.
  destruct (body w) as [[a | e] w1].
  - exists a, w1. reflexivity.
  - apply Hh.
Qed.

Lemma total_log_then_ret {A} entry (a : A) : total (log entry ;;; ret a).
Proof. intros w. eexists _, _. reflexivity. Qed.

(** ** Frames *)

#[export] Instance log_grows_frame : Frame log_grows.
Proof.
  split; unfold log_grows.
  - intros w. exists []. symmetry. apply app_nil_r.
  - intros a b c [l1 H1] [l2 H2]. exists (l1 ++ l2).
    rewrite H2, H1. symmetry. apply app_assoc.
  - intros f w. exists []. simpl. symmetry. apply app_nil_r.
  - intros f w. exists []. simpl. symmetry. apply app_nil_r.
  - intros e w. exists [e]. reflexivity.
Qed.

#[export] Instance same_outputs_frame : Frame same_outputs.
Proof.
  split; unfold same_outputs; simpl; try reflexivity.
  intros a b c H1 H2. congruence.
Qed.

#[export] Instance same_completion_frame : Frame same_completion.
Proof.
  split; unfold same_completion; simpl; try reflexivity.
  intros a b c H1 H2. congruence.
Qed.

Section Frames.

Context (R : World -> World -> Prop) `{!Frame R}.
Variable E : Externals.

Lemma frames_ret {A} (a : A) : frames R (ret a).
Proof. intros w. apply frame_refl. Qed.

Lemma frames_raise {A} e : frames R (@raise A e).
Proof. intros w. apply frame_refl. Qed.

Lemma frames_bind {A B} (m : M A) (k : A -> M B) :
  frames R m -> (forall a, frames R (k a)) -> frames R (bind m k).
Proof.
  intros Hm Hk w. unfold bind. specialize (Hm w).
  destruct (m w) as [[a | e] w1]; simpl in *.
  - eapply frame_trans; [exact Hm | apply Hk].
  - exact Hm.
Qed.

Lemma frames_try_except {A} (body : M A) (handler : exn -> M A) :
  frames R body -> (forall e, frames R (handler e)) ->
  frames R (try_except body handler).
Proof.
  intros Hb Hh w. unfold try_except. specialize (Hb w).
  destruct (body w) as [[a | e] w1]; simpl in *.
  - exact Hb.
  - eapply frame_trans; [exact Hb | apply Hh].
Qed.

Lemma frames_log entry : frames R (log entry).
Proof. intros w. apply frame_log. Qed.

Lemma frames_os_path_exists p : frames R (os_path_exists p).
Proof. intros w. apply frame_refl. Qed.

Lemma frames_os_remove p : frames R (os_remove E p).
Proof.
  intros w. unfold os_remove.
  destruct (fs w !! p) as [[data |] |]; simpl; try apply frame_refl.
  destruct (os_refuses E Remove p (fs w)); simpl.
  - apply frame_refl.
  - apply frame_fs.
Qed.

Lemma frames_os_rename src dst : frames R (os_rename E src dst).
Proof.
  intros w. unfold os_rename.
  destruct (fs w !! src) as [[data |] |], (fs w !! dst) as [[data' |] |];
    simpl; try apply frame_refl;
    destruct (os_refuses E Rename src (fs w)); simpl; try apply frame_refl;
    apply (frame_fs (fun files => <[dst := _]> (delete src files))).
Qed.

Lemma frames_os_path_getsize p : frames R (os_path_getsize E p).
Proof.
  intros w. unfold os_path_getsize.
  destruct (fs w !! p) as [[data |] |]; apply frame_refl.
Qed.

Lemma frames_write_file p data : frames R (write_file E p data).
Proof.
  intros w. unfold write_file.
  destruct (fs w !! p) as [[old |] |]; simpl; try apply frame_refl;
    destruct (open_write_error E p data (fs w)) as [[e files] |]; simpl;
    first [apply (frame_fs (fun _ => files)) | apply frame_fs].
Qed.

Lemma frames_makedirs d : frames R (makedirs E d).
Proof.
  intros w. unfold makedirs. destruct (os_makedirs E d); simpl.
  - apply frame_fs.
  - apply frame_refl.
Qed.

Lemma frames_read_file p : frames R (read_file E p).
Proof.
  intros w. unfold read_file.
  destruct (fs w !! p) as [[data |] |]; simpl; try apply frame_refl.
  destruct (os_refuses E OpenRead p (fs w)); apply frame_refl.
Qed.

Lemma frames_call_pure {A} (f : FS -> result A) : frames R (call_pure f).
Proof. intros w. apply frame_refl. Qed.

Lemma frames_call_io {A} (f : FS -> result A * FS) : frames R (call_io f).
Proof.
  intros w. unfold call_io. destruct (f (fs w)) as [r files]. simpl.
  apply (frame_fs (fun _ => files)).
Qed.

Lemma frames_video_close video : frames R (video_close video).
Proof. intros w. apply frame_handles. Qed.

Lemma frames_audio_close a : frames R (audio_close a).
Proof.
  destruct a; intros w; simpl.
  - apply frame_handles.
  - apply frame_refl.
Qed.

Lemma frames_open_video input_path : frames R (open_video E input_path).
Proof.
  intros w. unfold open_video. destruct (VideoFileClip E) as [construct |].
  - destruct (construct input_path (fs w)); simpl.
    + apply frame_handles.
    + apply frame_refl.
  - apply frame_refl.
Qed.

Lemma frames_audio_write_audiofile a path :
  frames R (audio_write_audiofile E a path).
Proof.
  destruct a; simpl.
  - apply frames_call_io.
  - apply frames_raise.
Qed.

End Frames.

Create HintDb frames.

#[local] Hint Resolve frames_ret frames_raise frames_log frames_os_path_exists
  frames_os_remove frames_os_rename frames_os_path_getsize frames_write_file
  frames_makedirs frames_read_file frames_call_pure frames_call_io
  frames_video_close frames_audio_close frames_open_video
  frames_audio_write_audiofile : frames.

(** One step of a frame proof: split a sequence, a [try] or a branch. *)
Ltac frames_intro :=
  try assumption;
  lazymatch goal with
  | |- forall _, _ => intros ?
  | |- _ => idtac
  end.

Ltac frames_step :=
  match goal with
  | |- frames _ (bind _ _) => apply frames_bind; frames_intro
  | |- frames _ (try_except _ _) => apply frames_try_except; frames_intro
  | |- frames _ (let _ := _ in _) => cbv zeta
  | |- frames _ (if ?b then _ else _) => destruct b
  | |- frames _ (match ?x with _ => _ end) => destruct x
  | |- frames _ _ => solve [eauto with frames]
  end.

Ltac frames_auto := repeat frames_step.

Section ProgramFrames.

Context (R : World -> World -> Prop) `{!Frame R}.
Variable E : Externals.

Lemma frames_validate_input_file p : frames R (validate_input_file E p).
Proof. unfold validate_input_file. frames_auto. Qed.

Lemma frames_validate_output_format p : frames R (validate_output_format E p).
Proof. unfold validate_output_format. frames_auto. Qed.

Lemma frames_log_audio_info k info : frames R (log_audio_info k info).
Proof. unfold log_audio_info. frames_auto. Qed.

Lemma frames_get_audio_info p : frames R (get_audio_info E p).
Proof. unfold get_audio_info. frames_auto. Qed.

Lemma frames_extract_audio_with_ffmpeg i o f :
  frames R (extract_audio_with_ffmpeg E i o f).
Proof. unfold extract_audio_with_ffmpeg. frames_auto. Qed.

Lemma frames_convert_audio_format i o : frames R (convert_audio_format E i o).
Proof. unfold convert_audio_format. frames_auto. Qed.

Lemma frames_extract_audio_with_moviepy i o :
  frames R (extract_audio_with_moviepy E i o).
Proof.
  unfold extract_audio_with_moviepy.
  pose proof frames_convert_audio_format. frames_auto.
Qed.

Lemma frames_extract_prelude i o : frames R (extract_prelude E i o).
Proof.
  unfold extract_prelude.
  pose proof frames_validate_input_file.
  pose proof frames_validate_output_format.
  pose proof frames_get_audio_info.
  pose proof frames_log_audio_info.
  frames_auto.
Qed.

Lemma frames_extract_attempts i o f : frames R (extract_attempts E i o f).
Proof.
  unfold extract_attempts.
  pose proof frames_extract_audio_with_ffmpeg.
  pose proof frames_extract_audio_with_moviepy.
  frames_auto.
Qed.

Lemma frames_extract_verdict o ok : frames R (extract_verdict E o ok).
Proof.
  unfold extract_verdict.
  pose proof frames_get_audio_info.
  pose proof frames_log_audio_info.
  frames_auto.
Qed.

Lemma frames_extract_audio i o : frames R (extract_audio E i o).
Proof.
  unfold extract_audio.
  pose proof frames_extract_prelude.
  pose proof frames_extract_attempts.
  pose proof frames_extract_verdict.
  frames_auto.
Qed.

Lemma frames_stage_input up : frames R (stage_input E up).
Proof. unfold stage_input. frames_auto. Qed.

Lemma frames_unstage_input up : frames R (unstage_input E up).
Proof. unfold unstage_input. frames_auto. Qed.

End ProgramFrames.

(** ** The validators *)

Lemma validate_input_file_missing E input_path w :
  path_exists (fs w) input_path = false ->
  validate_input_file E input_path w
  = (Raise (FileNotFoundError (MsgInputNotFound input_path)), w).
Proof.
  intros Hmissing. unfold validate_input_file, bind, os_path_exists.
  rewrite Hmissing. reflexivity.
Qed.

Lemma validate_input_file_present E input_path w :
  path_exists (fs w) input_path = true ->
  validate_input_file E input_path w
  = (let file_ext := extension E input_path in
     if py_in file_ext supported_video_formats then Ret true
     else Raise (ValueError (MsgUnsupportedVideo file_ext)),
     w).
Proof.
  intros Hfound. unfold validate_input_file, bind, os_path_exists.
  rewrite Hfound. cbn [negb]. cbv zeta.
  destruct (py_in (extension E input_path) supported_video_formats);
    reflexivity.
Qed.

(** C1, as stated, fails: with nothing on disk, [validate_input_file] does
    not return, it raises [FileNotFoundError]. *)
Lemma validate_input_file_raises_on_missing_file :
  validate_input_file Scenario.healthy "/tmp/clip.mp4" Scenario.empty_disk
  = (Raise (FileNotFoundError (MsgInputNotFound "/tmp/clip.mp4")),
     Scenario.empty_disk)
  /\ ~ (exists v w',
         validate_input_file Scenario.healthy "/tmp/clip.mp4" Scenario.empty_disk
         = (Ret v, w')).
Proof.
  assert (Hrun : validate_input_file Scenario.healthy "/tmp/clip.mp4"
                   Scenario.empty_disk
                 = (Raise (FileNotFoundError (MsgInputNotFound "/tmp/clip.mp4")),
                    Scenario.empty_disk))
    by (apply validate_input_file_missing; vm_compute; reflexivity).
  split; [exact Hrun |].
  intros (v & w' & Hret). rewrite Hrun in Hret. discriminate.
Qed.

(** C1, amended: for an input path that is not on disk,
    [validate_input_file] raises [FileNotFoundError] (the NotFound
    condition) and leaves the world as it was; [extract_audio] catches the
    exception, logs it and returns [False]. *)
Theorem missing_input_is_not_found E input_path output_path w :
  path_exists (fs w) input_path = false ->
  validate_input_file E input_path w
  = (Raise (FileNotFoundError (MsgInputNotFound input_path)), w)
  /\ extract_audio E input_path output_path w
     = (Ret false,
        append_log (LogError (FileNotFoundError (MsgInputNotFound input_path))) w).
Proof.
  intros Hmissing.
  pose proof (validate_input_file_missing E _ _ Hmissing) as Hraise.
  split; [exact Hraise |].
  unfold extract_audio.
  erewrite try_except_Raise; [reflexivity |].
  apply bind_Raise. unfold extract_prelude. apply bind_Raise. exact Hraise.
Qed.

Lemma missing_input_is_not_found_witness :
  path_exists (fs Scenario.empty_disk) "/tmp/clip.mp4" = false
  /\ extract_audio Scenario.healthy "/tmp/clip.mp4" "/tmp/clip.mp3"
       Scenario.empty_disk
     = (Ret false,
        append_log
          (LogError (FileNotFoundError (MsgInputNotFound "/tmp/clip.mp4")))
          Scenario.empty_disk).
Proof.
  split; [vm_compute; reflexivity |].
  apply (missing_input_is_not_found Scenario.healthy "/tmp/clip.mp4"
           "/tmp/clip.mp3" Scenario.empty_disk).
  vm_compute. reflexivity.
Defined.

(** C2, as stated, fails for the input validator: ".txt" is outside the
    allow-list, yet a path that is not on disk is rejected as not found,
    and the same path is rejected as unsupported once a file is there. *)
Lemma unsupported_input_rejection_depends_on_existence :
  py_in (extension Scenario.healthy "/tmp/notes.txt") supported_video_formats
  = false
  /\ fst (validate_input_file Scenario.healthy "/tmp/notes.txt"
            Scenario.empty_disk)
     = Raise (FileNotFoundError (MsgInputNotFound "/tmp/notes.txt"))
  /\ fst (validate_input_file Scenario.healthy "/tmp/notes.txt"
            Scenario.staged_notes)
     = Raise (ValueError (MsgUnsupportedVideo ".txt")).
Proof. vm_compute. repeat split. Qed.

(** C2, amended: an output path whose lower-cased extension is outside
    the audio allow-list is rejected by [validate_output_format] with
    [ValueError] in every world (the file system is not consulted); an
    input path whose lower-cased extension is outside the video
    allow-list is rejected by [validate_input_file] in every world, with
    [ValueError] when a file is at the path and with [FileNotFoundError]
    when none is.  The extension is lowered as [str.lower] does it, by the
    Unicode case mapping. *)
Theorem unsupported_extension_is_rejected E input_path output_path w :
  py_in (extension E input_path) supported_video_formats = false ->
  py_in (extension E output_path) supported_audio_formats = false ->
  validate_input_file E input_path w
  = (Raise (if path_exists (fs w) input_path
            then ValueError (MsgUnsupportedVideo (extension E input_path))
            else FileNotFoundError (MsgInputNotFound input_path)),
     w)
  /\ forall w',
       validate_output_format E output_path w'
       = (Raise (ValueError (MsgUnsupportedAudio (extension E output_path))),
          w').
Proof.
  intros Hvideo Haudio. split.
  - destruct (path_exists (fs w) input_path) eqn:Hfound.
    + rewrite (validate_input_file_present E _ _ Hfound). cbv zeta.
      rewrite Hvideo. reflexivity.
    + apply validate_input_file_missing. exact Hfound.
  - intros w'. unfold validate_output_format. cbv zeta.
    rewrite Haudio. reflexivity.
Qed.

Lemma unsupported_extension_is_rejected_witness :
  validate_input_file Scenario.healthy "/tmp/notes.txt" Scenario.staged_notes
  = (Raise (ValueError (MsgUnsupportedVideo ".txt")), Scenario.staged_notes)
  /\ validate_output_format Scenario.healthy "/tmp/song.MID" Scenario.empty_disk
     = (Raise (ValueError (MsgUnsupportedAudio ".mid")), Scenario.empty_disk).
Proof.
  destruct (unsupported_extension_is_rejected Scenario.healthy "/tmp/notes.txt"
              "/tmp/song.MID" Scenario.staged_notes) as [Hin Hout];
    [vm_compute; reflexivity | vm_compute; reflexivity |].
  split; [exact Hin | exact (Hout Scenario.empty_disk)].
Defined.

(** With any character outside ASCII in the extension the verdict is that
    of the Unicode case mapping: where it lowers the Kelvin sign to "k",
    as Python's does, "clip.mKv" with that sign is a supported input. *)
Example kelvin_sign_extension_is_accepted E w :
  let kelvin := String "226" (String "132" (String "170" "")) in
  let input_path := "/tmp/clip.m" +:+ kelvin +:+ "v" in
  unicode_lower E (".m" +:+ kelvin +:+ "v") = ".mkv" ->
  path_exists (fs w) input_path = true ->
  validate_input_file E input_path w = (Ret true, w).
Proof.
  intros kelvin input_path Hlower Hfound.
  rewrite (validate_input_file_present E _ _ Hfound). cbv zeta.
  change (extension E input_path) with (unicode_lower E (".m" +:+ kelvin +:+ "v")).
  rewrite Hlower. reflexivity.
Qed.

(** ** The primary extractor *)

(** For every format but ".flac" the command is the one of the table. *)
Lemma ffmpeg_cmd_spec input_path output_path format_type :
  format_type <> ".flac" ->
  ffmpeg_cmd input_path output_path format_type
  = spec_command input_path output_path format_type.
Proof.
  intros Hflac. unfold ffmpeg_cmd, spec_command, spec_profile.
  destruct (String.eqb format_type ".mp3"); [reflexivity |].
  destruct (String.eqb_spec format_type ".flac"); [contradiction |].
  destruct (String.eqb format_type ".wav"); reflexivity.
Qed.

(** Whatever the format, the command reads the input, drops the video
    stream and overwrites the output. *)
Lemma ffmpeg_cmd_shape input_path output_path format_type :
  exists audio_codec extra,
    ffmpeg_cmd input_path output_path format_type
    = ["ffmpeg"; "-i"; input_path; "-vn"; "-acodec"; audio_codec]
        ++ extra ++ ["-y"; output_path].
Proof.
  unfold ffmpeg_cmd.
  destruct (String.eqb format_type ".mp3");
    [exists "libmp3lame", ["-ab"; "320k"; "-ar"; "44100"; "-ac"; "2"];
     reflexivity |].
  destruct (String.eqb format_type ".flac");
    [exists "flac", ["-compression_level"; "8"]; reflexivity |].
  destruct (String.eqb format_type ".wav");
    [exists "pcm_s16le", [] | exists "copy", []]; reflexivity.
Qed.

(** [extract_audio_with_ffmpeg] never raises; it returns [True] exactly
    when the subprocess ran and exited with status 0, and on a non-zero
    status the log gains the command line and the stderr text. *)
Lemma extract_audio_with_ffmpeg_run E input_path output_path format_type w :
  let cmd := ffmpeg_cmd input_path output_path format_type in
  exists ok w',
    extract_audio_with_ffmpeg E input_path output_path format_type w
    = (Ret ok, w')
    /\ (ok = true <->
        exists cp files,
          subprocess_run E cmd (fs w) = (Ret cp, files)
          /\ returncode cp = 0%Z)
    /\ (forall cp files,
          subprocess_run E cmd (fs w) = (Ret cp, files) ->
          returncode cp <> 0%Z ->
          log_messages w'
          = log_messages w
              ++ [LogFfmpegCommand (PyStr.join " " cmd);
                  LogFfmpegError (stderr cp)])
    /\ open_handles w' = open_handles w.
Proof.
  intros cmd.
  unfold extract_audio_with_ffmpeg, try_except, bind, log, call_io, ret.
  fold cmd. cbn [fs append_log].
  destruct (subprocess_run E cmd (fs w)) as [[cp | e] files] eqn:Hrun.
  - destruct (Z.eqb_spec (returncode cp) 0) as [Hzero | Hnonzero]; cbn.
    + eexists _, _. split; [reflexivity |]. split; [| split; [| reflexivity]].
      * split; [| reflexivity]. intros _. exists cp, files. split; [reflexivity | exact Hzero].
      * intros cp' files' Heq Hne. inversion Heq; subst. contradiction.
    + eexists _, _. split; [reflexivity |]. split; [| split; [| reflexivity]].
      * split; [discriminate |].
        intros (cp' & files' & Heq & Hzero). inversion Heq; subst. contradiction.
      * intros cp' files' Heq _. inversion Heq; subst.
        cbn [log_messages append_log upd_fs].
        rewrite <- app_assoc. reflexivity.
  - eexists _, _. split; [reflexivity |]. split; [| split; [| reflexivity]].
    + split; [discriminate |].
      intros (cp' & files' & Heq & _). discriminate.
    + intros cp' files' Heq. discriminate.
Qed.

(** C6: for ".flac" the command asks the encoder for compression level 8,
    while the table asks for the maximum level, which for ffmpeg's FLAC
    encoder is 12: the two commands differ.  For every other format the
    command is the one of the table (LAME at 320k, 44100 Hz and 2 channels
    for ".mp3", pcm_s16le for ".wav", copy otherwise), always with [-vn]
    and [-y]; and for every format the function never raises, returns
    [True] exactly when the subprocess ran and exited with status 0, and
    on a non-zero status appends the stderr text to the log. *)
Theorem flac_command_is_below_maximum_level E input_path output_path :
  ffmpeg_cmd input_path output_path ".flac"
  = ["ffmpeg"; "-i"; input_path; "-vn"; "-acodec"; "flac";
     "-compression_level"; "8"; "-y"; output_path]
  /\ spec_command input_path output_path ".flac"
     = ["ffmpeg"; "-i"; input_path; "-vn"; "-acodec"; "flac";
        "-compression_level"; "12"; "-y"; output_path]
  /\ ffmpeg_cmd input_path output_path ".flac"
     <> spec_command input_path output_path ".flac"
  /\ (forall format_type,
        format_type <> ".flac" ->
        ffmpeg_cmd input_path output_path format_type
        = spec_command input_path output_path format_type)
  /\ (forall format_type w,
        let cmd := ffmpeg_cmd input_path output_path format_type in
        exists ok w',
          extract_audio_with_ffmpeg E input_path output_path format_type w
          = (Ret ok, w')
          /\ (ok = true <->
              exists cp files,
                subprocess_run E cmd (fs w) = (Ret cp, files)
                /\ returncode cp = 0%Z)
          /\ (forall cp files,
                subprocess_run E cmd (fs w) = (Ret cp, files) ->
                returncode cp <> 0%Z ->
                log_messages w'
                = log_messages w
                    ++ [LogFfmpegCommand (PyStr.join " " cmd);
                        LogFfmpegError (stderr cp)])).
Proof.
  split; [reflexivity |]. split; [reflexivity |]. split; [discriminate |].
  split; [intros format_type; apply ffmpeg_cmd_spec |].
  intros format_type w cmd.
  destruct (extract_audio_with_ffmpeg_run E input_path output_path format_type w)
    as (ok & w' & Hrun & Hok & Hlog & _).
  exists ok, w'. auto.
Qed.

(** ** The file system *)

Lemma path_exists_Some (files : FS) p n :
  files !! p = Some n -> path_exists files p = true.
Proof.
  intros Hp. unfold path_exists. apply bool_decide_eq_true. eauto.
Qed.

Lemma path_exists_None (files : FS) p :
  files !! p = None -> path_exists files p = false.
Proof.
  intros Hp. unfold path_exists. apply bool_decide_eq_false.
  rewrite Hp. intros [n Hn]. discriminate.
Qed.

Lemma path_exists_true (files : FS) p :
  path_exists files p = true -> exists n, files !! p = Some n.
Proof.
  unfold path_exists. intros Hp. apply bool_decide_eq_true in Hp.
  destruct Hp as [n Hn]. exists n. exact Hn.
Qed.

Lemma path_exists_false (files : FS) p :
  path_exists files p = false -> files !! p = None.
Proof.
  intros Hp. destruct (files !! p) as [n |] eqn:Hlook; [| reflexivity].
  rewrite (path_exists_Some _ _ _ Hlook) in Hp. discriminate.
Qed.

(** [os.path.getsize] returns for whatever is on disk. *)
Lemma os_path_getsize_exists E p w :
  path_exists (fs w) p = true ->
  exists size, os_path_getsize E p w = (Ret size, w).
Proof.
  intros Hfound. apply path_exists_true in Hfound as [n Hn].
  unfold os_path_getsize. rewrite Hn. destruct n; eexists; reflexivity.
Qed.

Lemma os_path_getsize_Ret E p w size w' :
  os_path_getsize E p w = (Ret size, w') ->
  w' = w /\ path_exists (fs w) p = true.
Proof.
  unfold os_path_getsize.
  destruct (fs w !! p) as [n |] eqn:Hlook; [| discriminate].
  intros Heq. split.
  - destruct n; inversion Heq; reflexivity.
  - eapply path_exists_Some. exact Hlook.
Qed.

(** When [os.remove] returns, a file was at the path, and it is gone. *)
Lemma os_remove_Ret E p w w' :
  os_remove E p w = (Ret tt, w') ->
  w' = upd_fs (delete p) w /\ exists data, fs w !! p = Some (File data).
Proof.
  unfold os_remove. destruct (fs w !! p) as [[data |] |]; try discriminate.
  destruct (os_refuses E Remove p (fs w)); [discriminate |].
  intros Heq. inversion Heq. split; [reflexivity | eauto].
Qed.


(** When [os.rename] returns, the source is gone and the destination
    holds what the source held. *)
Lemma os_rename_Ret E src dst w w' :
  os_rename E src dst w = (Ret tt, w') ->
  exists n,
    fs w !! src = Some n
    /\ w' = upd_fs (fun files => <[dst := n]> (delete src files)) w.
Proof.
  unfold os_rename.
  destruct (fs w !! src) as [[data |] |], (fs w !! dst) as [[data' |] |];
    try discriminate;
    destruct (os_refuses E Rename src (fs w)); try discriminate;
    intros Heq; inversion Heq; eexists; split; reflexivity.
Qed.

(** When staging returns, the upload is a regular file at the staged
    path and nothing else has changed. *)
Lemma write_file_Ret E p data w w' :
  write_file E p data w = (Ret tt, w') ->
  w' = upd_fs (insert p (File data)) w.
Proof.
  unfold write_file.
  destruct (fs w !! p) as [[old |] |]; try discriminate;
    destruct (open_write_error E p data (fs w)) as [[e files] |];
    try discriminate; intros Heq; inversion Heq; reflexivity.
Qed.

(** ** The media inspector *)

(** [get_audio_info] never raises; on the file system it does what the
    ffprobe call did. *)
Lemma get_audio_info_spec E file_path w :
  exists info w',
    get_audio_info E file_path w = (Ret info, w')
    /\ fs w' = snd (subprocess_run E (ffprobe_cmd file_path) (fs w)).
Proof.
  unfold get_audio_info, try_except, bind, call_io, call_pure, log, ret.
  destruct (subprocess_run E (ffprobe_cmd file_path) (fs w))
    as [[cp | e] files]; cbn.
  - destruct (returncode cp =? 0)%Z; cbn.
    + destruct (audio_stream_of_json E (stdout cp)); cbn;
        eexists _, _; split; reflexivity.
    + eexists _, _; split; reflexivity.
  - eexists _, _; split; reflexivity.
Qed.

Lemma log_audio_info_spec k info w :
  exists w', log_audio_info k info w = (Ret tt, w') /\ fs w' = fs w.
Proof. eexists. split; reflexivity. Qed.

Lemma log_optional_info_spec k (info : option AudioInfo) w :
  exists w',
    match info with
    | Some i => log_audio_info k i
    | None => ret tt
    end w = (Ret tt, w')
    /\ fs w' = fs w.
Proof.
  destruct info as [i |].
  - apply log_audio_info_spec.
  - exists w. split; reflexivity.
Qed.

(** ** The orchestrator *)

(** The verdict is [True] only for a reported success with the output on
    disk, before and after the final probe. *)
Lemma extract_verdict_true_inv E output_path success w w' :
  extract_verdict E output_path success w = (Ret true, w') ->
  success = true
  /\ path_exists (fs w) output_path = true
  /\ path_exists (fs w') output_path = true.
Proof.
  unfold extract_verdict. unfold bind at 1. unfold os_path_exists.
  destruct success; cbn [andb];
    [destruct (path_exists (fs w) output_path) eqn:Hbefore |];
    try (intros Hrun; cbv in Hrun; discriminate).
  intros Hrun.
  apply bind_Ret_inv in Hrun as (info & wa & _ & Hrun).
  apply bind_Ret_inv in Hrun as (u & wb & _ & Hrun).
  apply bind_Ret_inv in Hrun as (size & wc & Hsize & Hrun).
  apply os_path_getsize_Ret in Hsize as [-> Hafter].
  cbv [bind log ret] in Hrun. inversion Hrun; subst w'.
  repeat split. exact Hafter.
Qed.

(** With the output on disk and a probe that leaves it there, a reported
    success gives the verdict [True]. *)
Lemma extract_verdict_true E output_path w :
  probe_keeps E output_path ->
  path_exists (fs w) output_path = true ->
  exists w', extract_verdict E output_path true w = (Ret true, w').
Proof.
  intros Hkeeps Hbefore.
  unfold extract_verdict. unfold bind at 1. unfold os_path_exists.
  rewrite Hbefore. cbn [andb].
  destruct (get_audio_info_spec E output_path w) as (info & wa & Hinfo & Hfs).
  rewrite (bind_Ret _ _ _ _ _ Hinfo).
  destruct (log_optional_info_spec Extracted info wa) as (wb & Hlog & Hfsb).
  rewrite (bind_Ret _ _ _ _ _ Hlog).
  assert (Hafter : path_exists (fs wb) output_path = true).
  { rewrite Hfsb, Hfs. apply Hkeeps. exact Hbefore. }
  destruct (os_path_getsize_exists E output_path wb Hafter) as [size Hsize].
  rewrite (bind_Ret _ _ _ _ _ Hsize).
  eexists. reflexivity.
Qed.

(** C3, as stated, fails: ffmpeg leaves an empty /tmp/clip.mp3 and exits
    with status 1, MoviePy cannot open the clip; after both attempts the
    output file is on disk, and the item is marked failed. *)
Lemma existing_output_can_be_marked_failed :
  let E := Scenario.truncated_output in
  let w1 := snd (extract_prelude E "/tmp/clip.mp4" "/tmp/clip.mp3"
                   Scenario.staged_clip) in
  let w2 := snd (extract_attempts E "/tmp/clip.mp4" "/tmp/clip.mp3" ".mp3" w1) in
  fst (extract_prelude E "/tmp/clip.mp4" "/tmp/clip.mp3" Scenario.staged_clip)
  = Ret ".mp3"
  /\ fst (extract_attempts E "/tmp/clip.mp4" "/tmp/clip.mp3" ".mp3" w1)
     = Ret false
  /\ path_exists (fs w2) "/tmp/clip.mp3" = true
  /\ fst (extract_audio E "/tmp/clip.mp4" "/tmp/clip.mp3" Scenario.staged_clip)
     = Ret false.
Proof. vm_compute. repeat split. Qed.

(** C3, amended: provided the final ffprobe call leaves the output file in
    place, [extract_audio] returns [True] exactly when validation and
    set-up went through, one of the two attempts reported success, and
    the output file is on disk after them.  An output file that is on
    disk while both attempts reported failure does not make the item
    successful. *)
Theorem extract_audio_success_iff E input_path output_path w :
  probe_keeps E output_path ->
  fst (extract_audio E input_path output_path w) = Ret true
  <-> exists output_format w1 w2,
        extract_prelude E input_path output_path w = (Ret output_format, w1)
        /\ extract_attempts E input_path output_path output_format w1
           = (Ret true, w2)
        /\ path_exists (fs w2) output_path = true.
Proof.
  intros Hkeeps. unfold extract_audio, try_except. split.
  - destruct (bind _ _ w) as [[verdict | e] w'] eqn:Hbody.
    + cbn. intros Hverdict. inversion Hverdict; subst verdict.
      apply bind_Ret_inv in Hbody as (output_format & w1 & Hpre & Hbody).
      apply bind_Ret_inv in Hbody as (success & w2 & Hatt & Hbody).
      apply extract_verdict_true_inv in Hbody as (-> & Hexists & _).
      exists output_format, w1, w2. auto.
    + cbn. discriminate.
  - intros (output_format & w1 & w2 & Hpre & Hatt & Hexists).
    rewrite (bind_Ret _ _ _ _ _ Hpre), (bind_Ret _ _ _ _ _ Hatt).
    destruct (extract_verdict_true E output_path w2 Hkeeps Hexists)
      as (w' & ->).
    reflexivity.
Qed.

Lemma extract_audio_success_iff_witness :
  fst (extract_audio Scenario.healthy "/tmp/clip.mp4" "/tmp/clip.mp3"
         Scenario.staged_clip) = Ret true
  <-> exists output_format w1 w2,
        extract_prelude Scenario.healthy "/tmp/clip.mp4" "/tmp/clip.mp3"
          Scenario.staged_clip = (Ret output_format, w1)
        /\ extract_attempts Scenario.healthy "/tmp/clip.mp4" "/tmp/clip.mp3"
             output_format w1 = (Ret true, w2)
        /\ path_exists (fs w2) "/tmp/clip.mp3" = true.
Proof.
  apply (extract_audio_success_iff Scenario.healthy "/tmp/clip.mp4"
           "/tmp/clip.mp3" Scenario.staged_clip).
  intros files Hfound. exact Hfound.
Defined.

Example healthy_run_succeeds :
  fst (extract_audio Scenario.healthy "/tmp/clip.mp4" "/tmp/clip.mp3"
         Scenario.staged_clip) = Ret true.
Proof. vm_compute. reflexivity. Qed.

(** ** The fallback extractor *)

Lemma convert_audio_format_total E input_audio_path output_path :
  total (convert_audio_format E input_audio_path output_path).
Proof.
  unfold convert_audio_format. apply total_try_except.
  intros e. apply total_log_then_ret.
Qed.

(** No exception leaves the fallback extractor. *)
Lemma extract_audio_with_moviepy_total E input_path output_path :
  total (extract_audio_with_moviepy E input_path output_path).
Proof.
  unfold extract_audio_with_moviepy. apply total_try_except.
  intros e. apply total_log_then_ret.
Qed.

(** An exception before the conversion (opening the clip, writing the
    temporary file) is turned into [False]. *)
Lemma fallback_returns_false_when_decoding_raises E input_path output_path w :
  (exists e w1,
     open_video E input_path (append_log LogMoviepyStart w) = (Raise e, w1))
  \/ (exists video w1 e w2,
        open_video E input_path (append_log LogMoviepyStart w) = (Ret video, w1)
        /\ audio_write_audiofile E (audio video) (temp_wav_of output_path) w1
           = (Raise e, w2)) ->
  fst (extract_audio_with_moviepy E input_path output_path w) = Ret false.
Proof.
  unfold extract_audio_with_moviepy, try_except.
  unfold bind at 1. unfold log at 1.
  intros [(e & w1 & Hopen) | (video & w1 & e & w2 & Hopen & Hwrite)].
  - rewrite (bind_Raise _ _ _ _ _ Hopen). reflexivity.
  - rewrite (bind_Ret _ _ _ _ _ Hopen). cbv zeta.
    rewrite (bind_Raise _ _ _ _ _ Hwrite). reflexivity.
Qed.

(** C4: the audio decoder breaks while the temporary WAV file is being
    written.  [extract_audio_with_moviepy] returns [False] with the
    temporary file still on disk and both readers of the clip still open:
    the clean-up of lines 143-148 is skipped on the way to the handler. *)
Theorem fallback_leaves_temp_file_and_open_handles :
  let run := extract_audio_with_moviepy Scenario.broken_audio
               "/tmp/clip.mp4" "/tmp/clip.mp3" Scenario.staged_clip in
  fst run = Ret false
  /\ temp_wav_of "/tmp/clip.mp3" = "/tmp/clip_temp.wav"
  /\ path_exists (fs (snd run)) "/tmp/clip_temp.wav" = true
  /\ open_handles (snd run)
     = [VideoReader 1 "/tmp/clip.mp4"; AudioReader 2 "/tmp/clip.mp4"].
Proof. vm_compute. repeat split. Qed.

(** A clip without audio track: the video reader stays open. *)
Example fallback_leaks_reader_of_silent_clip :
  let run := extract_audio_with_moviepy Scenario.silent_video
               "/tmp/clip.mp4" "/tmp/clip.mp3" Scenario.staged_clip in
  fst run = Ret false
  /\ open_handles (snd run) = [VideoReader 1 "/tmp/clip.mp4"].
Proof. vm_compute. repeat split. Qed.

(** On a run without exception the clean-up is done. *)
Example fallback_cleans_up_on_success :
  let run := extract_audio_with_moviepy Scenario.healthy
               "/tmp/clip.mp4" "/tmp/clip.mp3" Scenario.staged_clip in
  fst run = Ret true
  /\ path_exists (fs (snd run)) "/tmp/clip_temp.wav" = false
  /\ path_exists (fs (snd run)) "/tmp/clip.mp3" = true
  /\ open_handles (snd run) = [].
Proof. vm_compute. repeat split. Qed.

(** A second failed run on the same file leaves two more readers; the
    readers of the first run are still there. *)
Example leaked_readers_add_up :
  let first := snd (extract_audio_with_moviepy Scenario.broken_audio
                      "/tmp/clip.mp4" "/tmp/clip.mp3" Scenario.staged_clip) in
  open_handles
    (snd (extract_audio_with_moviepy Scenario.broken_audio
            "/tmp/clip.mp4" "/tmp/clip.mp3" first))
  = [VideoReader 1 "/tmp/clip.mp4"; AudioReader 2 "/tmp/clip.mp4";
     VideoReader 3 "/tmp/clip.mp4"; AudioReader 4 "/tmp/clip.mp4"].
Proof. vm_compute. reflexivity. Qed.

(** A successful run after a failed one on the same file closes its own
    readers only. *)
Example close_keeps_readers_of_earlier_runs :
  let first := snd (extract_audio_with_moviepy Scenario.broken_audio
                      "/tmp/clip.mp4" "/tmp/clip.mp3" Scenario.staged_clip) in
  open_handles
    (snd (extract_audio_with_moviepy Scenario.healthy
            "/tmp/clip.mp4" "/tmp/clip.mp3" first))
  = [VideoReader 1 "/tmp/clip.mp4"; AudioReader 2 "/tmp/clip.mp4"].
Proof. vm_compute. reflexivity. Qed.

(** *** Readers *)

Lemma handle_id_le_max h l :
  In h l -> handle_id h <= List.list_max (List.map handle_id l).
Proof.
  induction l as [| x l IH]; intros Hin; [destruct Hin |].
  cbn [List.map List.list_max List.fold_right].
  change (List.fold_right Nat.max 0 (List.map handle_id l))
    with (List.list_max (List.map handle_id l)).
  destruct Hin as [-> | Hin]; [lia |].
  specialize (IH Hin). lia.
Qed.

(** Every open reader has a number below the fresh one. *)
Lemma fresh_handle_above l h : In h l -> handle_id h < fresh_handle l.
Proof.
  intros Hin. unfold fresh_handle. pose proof (handle_id_le_max h l Hin). lia.
Qed.

(** Closing a reader that is not in the list changes nothing. *)
Lemma remove_handle_absent id l :
  (forall h, In h l -> handle_id h <> id) -> remove_handle id l = l.
Proof.
  intros Hall. unfold remove_handle. induction l as [| x l IH]; [reflexivity |].
  cbn [List.filter].
  assert (Hx : Nat.eqb (handle_id x) id = false)
    by (apply Nat.eqb_neq; apply Hall; left; reflexivity).
  rewrite Hx. cbn [negb]. f_equal. apply IH.
  intros h Hh. apply Hall. right. exact Hh.
Qed.

Lemma remove_handle_app id l l' :
  remove_handle id (l ++ l') = remove_handle id l ++ remove_handle id l'.
Proof. apply List.filter_app. Qed.

(** Closing the two readers a clip started, in either order and any
    number of times, gives back the readers that were open before. *)
Lemma close_own_readers l p :
  let id := fresh_handle l in
  remove_handle (S id)
    (remove_handle id (l ++ [VideoReader id p; AudioReader (S id) p]))
  = l
  /\ remove_handle (S id) l = l.
Proof.
  intros id.
  assert (Hid : remove_handle id l = l).
  { apply remove_handle_absent. intros h Hh.
    pose proof (fresh_handle_above l h Hh). fold id in H. lia. }
  assert (Hsid : remove_handle (S id) l = l).
  { apply remove_handle_absent. intros h Hh.
    pose proof (fresh_handle_above l h Hh). fold id in H. lia. }
  split; [| exact Hsid].
  rewrite remove_handle_app, Hid.
  unfold remove_handle at 2. cbn [List.filter handle_id].
  rewrite Nat.eqb_refl.
  replace (Nat.eqb (S id) id) with false by (symmetry; apply Nat.eqb_neq; lia).
  cbn [negb]. rewrite remove_handle_app, Hsid.
  unfold remove_handle. cbn [List.filter handle_id].
  rewrite Nat.eqb_refl. cbn [negb]. apply app_nil_r.
Qed.

Lemma convert_audio_format_handles E input_audio_path output_path w :
  open_handles (snd (convert_audio_format E input_audio_path output_path w))
  = open_handles w.
Proof.
  unfold convert_audio_format, try_except, bind, call_pure, call_io, log, ret.
  destruct (from_wav E input_audio_path (fs w)) as [segment | e];
    [| reflexivity].
  cbv zeta.
  destruct (String.eqb _ "mp3");
    [| destruct (String.eqb _ "flac")];
    match goal with
    | |- context [export E segment output_path ?f ?b (fs w)] =>
        destruct (export E segment output_path f b (fs w)) as [[[] | e] files]
    end; reflexivity.
Qed.

(** The normal path does the clean-up: when the fallback extractor returns
    [True], the temporary file is gone, and the readers that are open are
    those that were open before: the clip's own two are closed, and no
    other is. *)
Lemma fallback_success_cleans_up E input_path output_path w w' :
  temp_wav_of output_path <> output_path ->
  extract_audio_with_moviepy E input_path output_path w = (Ret true, w') ->
  path_exists (fs w') (temp_wav_of output_path) = false
  /\ open_handles w' = open_handles w
  /\ exists video w1,
       open_video E input_path (append_log LogMoviepyStart w) = (Ret video, w1)
       /\ video_reader video = fresh_handle (open_handles w)
       /\ exists clip, audio video = Some clip
                       /\ audio_reader clip = S (fresh_handle (open_handles w)).
Proof.
  intros Hdistinct. unfold extract_audio_with_moviepy, try_except.
  destruct (bind _ _ w) as [[ok | e] wz] eqn:Hbody;
    [| cbv [bind log ret]; discriminate].
  intros Heq. inversion Heq; subst ok wz. clear Heq.
  apply bind_Ret_inv in Hbody as (u0 & w0 & Hstart & Hbody).
  cbv [log] in Hstart. inversion Hstart; subst u0 w0. clear Hstart.
  apply bind_Ret_inv in Hbody as (video & w1 & Hopen & Hbody). cbv zeta in Hbody.
  apply bind_Ret_inv in Hbody as (u1 & w2 & Hwrite & Hbody).
  apply bind_Ret_inv in Hbody as (u2 & w3 & Hmove & Hbody).
  apply bind_Ret_inv in Hbody as (u3 & w4 & Hvclose & Hbody).
  apply bind_Ret_inv in Hbody as (u4 & w5 & Haclose & Hbody).
  cbv [bind log ret] in Hbody. inversion Hbody; subst w'. clear Hbody.
  cbv [video_close] in Hvclose. inversion Hvclose; subst u3 w4. clear Hvclose.
  destruct (audio video) as [clip |] eqn:Haudio; [| discriminate].
  cbv [audio_close] in Haclose. inversion Haclose; subst u4 w5. clear Haclose.
  (* the clip and the readers it started *)
  pose proof Hopen as Hopened. unfold open_video in Hopened.
  destruct (VideoFileClip E) as [construct |]; [| discriminate].
  cbn [fs append_log open_handles] in Hopened.
  destruct (construct input_path (fs w)) as [has_audio | e]; [| discriminate].
  inversion Hopened as [[Hvideo Hw1]]. clear Hopened.
  assert (Hhas : has_audio = true).
  { destruct has_audio; [reflexivity |].
    rewrite <- Hvideo in Haudio. discriminate. }
  subst has_audio.
  assert (Hclip : clip = {| audio_source := input_path;
                            audio_reader := S (fresh_handle (open_handles w)) |}).
  { rewrite <- Hvideo in Haudio. cbn in Haudio. congruence. }
  (* the file system and the readers between the write and the close *)
  assert (Hh2 : open_handles w2 = open_handles w1).
  { cbn [audio_write_audiofile] in Hwrite. unfold call_io in Hwrite.
    destruct (write_audiofile E clip (temp_wav_of output_path) (fs w1))
      as [r files]. inversion Hwrite. reflexivity. }
  assert (Hmoved : fs w3 !! temp_wav_of output_path = None
                   /\ open_handles w3 = open_handles w2).
  { destruct (negb (PyStr.endswith output_path ".wav")).
    - apply bind_Ret_inv in Hmove as (converted & wc & Hconv & Hremove).
      pose proof (convert_audio_format_handles E (temp_wav_of output_path)
                    output_path w2) as Hhc.
      rewrite Hconv in Hhc. cbn [snd] in Hhc.
      destruct u2. apply os_remove_Ret in Hremove as [-> _].
      split; [cbn; apply lookup_delete_eq | exact Hhc].
    - destruct u2. apply os_rename_Ret in Hmove as (n & _ & ->).
      split; [| reflexivity]. cbn.
      rewrite lookup_insert_ne by (intros Heq; apply Hdistinct; symmetry; exact Heq).
      apply lookup_delete_eq. }
  destruct Hmoved as [Hgone Hh3].
  split; [cbn; apply path_exists_None; exact Hgone |].
  split.
  - cbn [open_handles upd_handles append_log].
    rewrite Hh3, Hh2, <- Hw1, Hclip.
    cbn [open_handles upd_handles append_log video_reader audio_reader
         audio_source].
    destruct (close_own_readers (open_handles w) input_path) as [Hclosed Hagain].
    cbv zeta in Hclosed, Hagain. rewrite Hclosed. exact Hagain.
  - exists video, w1. split; [exact Hopen |].
    split; [rewrite <- Hvideo; reflexivity |].
    exists clip. split; [exact Haudio |]. rewrite Hclip. reflexivity.
Qed.

(** C5: pydub reads the temporary WAV file and raises in [export],
    leaving the output file it had opened empty.
    [convert_audio_format] catches the exception, logs it and returns
    [False]; its caller drops that value (line 142), and
    [extract_audio_with_moviepy] returns [True] over an output file that
    holds nothing. *)
Theorem fallback_reports_success_when_conversion_fails :
  let run := extract_audio_with_moviepy Scenario.broken_converter
               "/tmp/clip.mp4" "/tmp/clip.mp3" Scenario.staged_clip in
  fst (convert_audio_format Scenario.broken_converter
         "/tmp/clip_temp.wav" "/tmp/clip.mp3"
         (Scenario.make_world {[ "/tmp/clip_temp.wav" := Scenario.full_wav ]}))
  = Ret false
  /\ fst run = Ret true
  /\ log_messages (snd run)
     = [LogMoviepyStart;
        LogConvertException (FileNotFoundError (MsgText "ffmpeg"));
        LogMoviepyDone "/tmp/clip.mp3"]
  /\ fs (snd run) !! "/tmp/clip.mp3" = Some (File []).
Proof. vm_compute. repeat split. Qed.

(** The orchestrator's existence test does not notice: the empty file is
    there, and the item is marked successful with a size of 0. *)
Example orchestrator_accepts_empty_output :
  let run := extract_audio Scenario.broken_converter "/tmp/clip.mp4"
               "/tmp/clip.mp3" Scenario.staged_clip in
  fst run = Ret true
  /\ In (LogFileSize 0) (log_messages (snd run))
  /\ fs (snd run) !! "/tmp/clip.mp3" = Some (File []).
Proof. vm_compute. repeat split. right. auto 20. Qed.

(** ** One item of the batch *)

(** Nothing raised inside [extract_audio] reaches its caller. *)
Lemma extract_audio_total E input_path output_path :
  total (extract_audio E input_path output_path).
Proof.
  unfold extract_audio. apply total_try_except.
  intros e. apply total_log_then_ret.
Qed.


(** What lines 384-394 do, by the outcome of [extract_audio]. *)
Lemma extract_and_record_spec E cfg i total_files uploaded_file n w :
  exists success w1,
    extract_audio E (input_video_path_of uploaded_file)
      (output_audio_path_of cfg uploaded_file)
      (append_log (LogItemHeader (i + 1) total_files (name uploaded_file)) w)
    = (Ret success, w1)
    /\ extract_and_record E cfg i total_files uploaded_file n w
       = if success
         then (Ret (n + 1),
               append_log (LogItemDone (name uploaded_file))
                 (append_output_path (output_audio_path_of cfg uploaded_file) w1))
         else (Ret n, append_log (LogItemFailed (name uploaded_file)) w1).
Proof.
  destruct (extract_audio_total E (input_video_path_of uploaded_file)
              (output_audio_path_of cfg uploaded_file)
              (append_log (LogItemHeader (i + 1) total_files (name uploaded_file)) w))
    as (success & w1 & Hrun).
  exists success, w1. split; [exact Hrun |].
  unfold extract_and_record. cbv zeta.
  unfold bind at 1. unfold log at 1.
  rewrite (bind_Ret _ _ _ _ _ Hrun).
  destruct success; reflexivity.
Qed.


(** One turn of the loop for an upload that was staged: [extract_audio]
    returns, its verdict is recorded, and the staged file is removed. *)
Lemma process_item_staged E cfg i total_files uploaded_file n w w0 :
  stage_input E uploaded_file w = (Ret tt, w0) ->
  exists success w1,
    extract_audio E (input_video_path_of uploaded_file)
      (output_audio_path_of cfg uploaded_file)
      (append_log (LogItemHeader (i + 1) total_files (name uploaded_file)) w0)
    = (Ret success, w1)
    /\ process_item E cfg i total_files uploaded_file n w
       = (unstage_input E uploaded_file ;;;
          ret (if success then n + 1 else n))
           (if success
            then append_log (LogItemDone (name uploaded_file))
                   (append_output_path
                      (output_audio_path_of cfg uploaded_file) w1)
            else append_log (LogItemFailed (name uploaded_file)) w1).
Proof.
  intros Hstage.
  destruct (extract_and_record_spec E cfg i total_files uploaded_file n w0)
    as (success & w1 & Hrun & Hrec).
  exists success, w1. split; [exact Hrun |].
  unfold process_item. rewrite (bind_Ret _ _ _ _ _ Hstage).
  destruct success; rewrite (bind_Ret _ _ _ _ _ Hrec); reflexivity.
Qed.


(** Result list, tally and completion flag over one turn of the loop,
    however it ends. *)
Lemma process_item_outputs E cfg i total_files uploaded_file n w :
  let run := process_item E cfg i total_files uploaded_file n w in
  exists new,
    output_audio_paths (snd run) = output_audio_paths w ++ new
    /\ (new = [] \/ new = [output_audio_path_of cfg uploaded_file])
    /\ processing_complete (snd run) = processing_complete w
    /\ log_grows w (snd run)
    /\ forall n1, fst run = Ret n1 ->
         n1 = n + length new
         /\ (In (LogItemDone (name uploaded_file)) (log_messages (snd run))
             \/ In (LogItemFailed (name uploaded_file)) (log_messages (snd run))).
Proof.
  intros run. subst run.
  pose proof (frames_stage_input same_outputs E uploaded_file w) as Hs0.
  pose proof (frames_stage_input same_completion E uploaded_file w) as Hc0.
  pose proof (frames_stage_input log_grows E uploaded_file w) as Hl0.
  destruct (stage_input E uploaded_file w) as [[[] | e0] w0] eqn:Hstage;
    cbn [snd] in Hs0, Hc0, Hl0.
  2:{ unfold process_item. rewrite (bind_Raise _ _ _ _ _ Hstage). cbn [fst snd].
      exists []. rewrite app_nil_r.
      split; [exact Hs0 |]. split; [left; reflexivity |].
      split; [exact Hc0 |]. split; [exact Hl0 | discriminate]. }
  destruct (process_item_staged E cfg i total_files uploaded_file n w w0 Hstage)
    as (success & w1 & Hrun & ->).
  set (header := LogItemHeader (i + 1) total_files (name uploaded_file)) in *.
  pose proof (frames_extract_audio same_outputs E
                (input_video_path_of uploaded_file)
                (output_audio_path_of cfg uploaded_file)
                (append_log header w0)) as Hs1.
  pose proof (frames_extract_audio same_completion E
                (input_video_path_of uploaded_file)
                (output_audio_path_of cfg uploaded_file)
                (append_log header w0)) as Hc1.
  pose proof (frames_extract_audio log_grows E
                (input_video_path_of uploaded_file)
                (output_audio_path_of cfg uploaded_file)
                (append_log header w0)) as Hl1.
  rewrite Hrun in Hs1, Hc1, Hl1. cbn [snd] in Hs1, Hc1, Hl1.
  assert (Hl01 : log_grows w w1).
  { eapply frame_trans; [exact Hl0 |].
    eapply frame_trans; [apply (frame_log (R := log_grows)) | exact Hl1]. }
  unfold same_outputs, same_completion in *. cbn in Hs1, Hc1.
  set (w2 := if success then append_log _ _ else append_log _ _).
  assert (Hverdict :
            In (if success then LogItemDone (name uploaded_file)
                else LogItemFailed (name uploaded_file)) (log_messages w2)
            /\ log_grows w w2
            /\ processing_complete w2 = processing_complete w
            /\ output_audio_paths w2
               = output_audio_paths w
                   ++ (if success
                       then [output_audio_path_of cfg uploaded_file] else [])).
  { subst w2. destruct success; cbn.
    - split; [apply in_or_app; right; left; reflexivity |].
      split; [destruct Hl01 as [l Hl]; eexists (l ++ [_]); cbn;
              rewrite Hl; symmetry; apply app_assoc |].
      split; congruence.
    - split; [apply in_or_app; right; left; reflexivity |].
      split; [destruct Hl01 as [l Hl]; eexists (l ++ [_]); cbn;
              rewrite Hl; symmetry; apply app_assoc |].
      rewrite app_nil_r. split; congruence. }
  destruct Hverdict as (Hin & Hl2 & Hc2 & Hs2).
  pose proof (frames_unstage_input same_outputs E uploaded_file w2) as Hs3.
  pose proof (frames_unstage_input same_completion E uploaded_file w2) as Hc3.
  pose proof (frames_unstage_input log_grows E uploaded_file w2) as Hl3.
  unfold same_outputs, same_completion in *.
  unfold bind.
  destruct (unstage_input E uploaded_file w2) as [[[] | e] w3];
    cbn [fst snd ret] in *;
    exists (if success then [output_audio_path_of cfg uploaded_file] else []);
    (split; [congruence |]);
    (split; [destruct success; auto |]);
    (split; [congruence |]);
    (split; [eapply frame_trans; eassumption |]);
    try discriminate.
  intros n1 Hn1. inversion Hn1; subst n1. split.
  - destruct success; cbn; lia.
  - destruct Hl3 as [l3 Hl3]. rewrite Hl3.
    destruct success; [left | right]; apply in_or_app; left; exact Hin.
Qed.

(** ** The batch loop *)

Lemma log_grows_In w w' entry :
  log_grows w w' -> In entry (log_messages w) -> In entry (log_messages w').
Proof.
  intros [l Hl] Hin. rewrite Hl. apply in_or_app. left. exact Hin.
Qed.

(** Result list, tally, completion flag and log over the loop, however
    it ends: the list gains, in upload order, at most one output path per
    upload; a loop that ends has counted the paths it added and has left
    a verdict in the log for every upload. *)
Lemma batch_loop_outputs E cfg total_files uploaded_files :
  forall i n w,
    let run := batch_loop E cfg i total_files uploaded_files n w in
    exists new,
      output_audio_paths (snd run) = output_audio_paths w ++ new
      /\ sublist new (List.map (output_audio_path_of cfg) uploaded_files)
      /\ processing_complete (snd run) = processing_complete w
      /\ log_grows w (snd run)
      /\ forall n', fst run = Ret n' ->
           n' = n + length new
           /\ forall uploaded_file, In uploaded_file uploaded_files ->
                In (LogItemDone (name uploaded_file)) (log_messages (snd run))
                \/ In (LogItemFailed (name uploaded_file))
                      (log_messages (snd run)).
Proof.
  induction uploaded_files as [| uploaded_file rest IH]; intros i n w run;
    subst run.
  - exists []. cbn. rewrite app_nil_r.
    split; [reflexivity |]. split; [constructor |].
    split; [reflexivity |]. split; [apply frame_refl |].
    intros n' Hn'. inversion Hn'. split; [lia | intros ? []].
  - destruct (process_item_outputs E cfg i total_files uploaded_file n w)
      as (new1 & Hout1 & Hnew1 & Hc1 & Hl1 & Hn1).
    cbn [batch_loop List.map].
    destruct (process_item E cfg i total_files uploaded_file n w)
      as [[n1 | e] w1] eqn:Hitem; cbn [fst snd] in *;
      [rewrite (bind_Ret _ _ _ _ _ Hitem)
      | rewrite (bind_Raise _ _ _ _ _ Hitem)]; cbn [fst snd].
    + destruct (IH (i + 1) n1 w1) as (new & Hout & Hsub & Hc & Hl & Hn).
      cbv zeta in *.
      destruct (Hn1 n1 eq_refl) as [-> Hverdict].
      exists (new1 ++ new).
      split; [rewrite Hout, Hout1; symmetry; apply app_assoc |].
      split.
      { destruct Hnew1 as [-> | ->]; cbn [app].
        - apply sublist_cons. exact Hsub.
        - apply sublist_skip. exact Hsub. }
      split; [congruence |].
      split; [eapply frame_trans; eassumption |].
      intros n' Hn'. destruct (Hn n' Hn') as [-> Hall].
      split; [rewrite length_app; lia |].
      intros up [<- | Hin]; [| apply Hall; exact Hin].
      destruct Hverdict as [Hdone | Hfailed];
        [left | right]; eapply log_grows_In; eassumption.
    + exists new1.
      split; [exact Hout1 |].
      split.
      { destruct Hnew1 as [-> | ->].
        - apply sublist_nil_l.
        - apply sublist_skip. apply sublist_nil_l. }
      split; [exact Hc1 |]. split; [exact Hl1 | discriminate].
Qed.





(** C10: when a batch run ends, the tally it reports is the length of
    the result list. *)
Theorem success_tally_is_result_count E cfg uploaded_files w n w' :
  run_batch E cfg uploaded_files w = (Ret n, w') ->
  length (output_audio_paths w') = n.
Proof.
  unfold run_batch. unfold bind at 1. intros Hrun.
  apply bind_Ret_inv in Hrun as (n1 & w1 & Hloop & Hrun).
  cbv [bind ret] in Hrun. inversion Hrun; subst n1 w'. clear Hrun.
  destruct (batch_loop_outputs E cfg (length uploaded_files) uploaded_files
              0 0 (reset_session w)) as (new & Hout & _ & _ & _ & Hn).
  cbv zeta in Hout, Hn. rewrite Hloop in Hout, Hn. cbn [fst snd] in Hout, Hn.
  destruct (Hn n eq_refl) as [-> _]. cbn in *. rewrite Hout. reflexivity.
Qed.

Lemma success_tally_is_result_count_witness :
  fst (run_batch Scenario.healthy Scenario.mp3_zip
         [Scenario.clip_upload; Scenario.notes_upload] Scenario.empty_disk)
  = Ret 1
  /\ length (output_audio_paths
               (snd (run_batch Scenario.healthy Scenario.mp3_zip
                       [Scenario.clip_upload; Scenario.notes_upload]
                       Scenario.empty_disk))) = 1.
Proof.
  split; [vm_compute; reflexivity |].
  apply (success_tally_is_result_count Scenario.healthy Scenario.mp3_zip
           [Scenario.clip_upload; Scenario.notes_upload] Scenario.empty_disk).
  vm_compute. reflexivity.
Defined.

(** ** The bundler *)

(** [zip_file.write] for a path that is on disk: it stores what is
    there, or raises the refusal of [zipfile]; the world stays as it is. *)
Lemma zip_write_outcome E file_path w :
  path_exists (fs w) file_path = true ->
  match zip_write E file_path w with
  | (Ret member, w') =>
      w' = w
      /\ zip_write_error E file_path (fs w) = None
      /\ stored_as (fs w) file_path member
  | (Raise e, w') =>
      w' = w /\ zip_write_error E file_path (fs w) = Some e
  end.
Proof.
  intros Hfound. apply path_exists_true in Hfound as [n Hn].
  unfold zip_write, stored_as. rewrite Hn.
  destruct (zip_write_error E file_path (fs w)) as [e |]; [auto |].
  destruct n; cbn; auto.
Qed.

Lemma zip_write_all_cons E file_path rest zip_file w :
  zip_write_all E (file_path :: rest) zip_file w
  = if path_exists (fs w) file_path
    then (member <- zip_write E file_path ;;
          zip_write_all E rest (zip_file ++ [member])) w
    else zip_write_all E rest zip_file w.
Proof.
  cbn [zip_write_all]. unfold bind at 1. unfold os_path_exists.
  destruct (path_exists (fs w) file_path); reflexivity.
Qed.

(** The loop of [create_zip_file], by its outcome. *)
Lemma zip_write_all_outcome E file_paths :
  forall zip_file w,
    match zip_write_all E file_paths zip_file w with
    | (Ret zip_data, w') =>
        w' = w
        /\ exists written,
             zip_data = zip_file ++ written
             /\ Forall2 (stored_as (fs w))
                        (List.filter (path_exists (fs w)) file_paths) written
             /\ (forall file_path,
                   In file_path (List.filter (path_exists (fs w)) file_paths) ->
                   zip_write_error E file_path (fs w) = None)
    | (Raise e, w') =>
        w' = w
        /\ exists file_path,
             In file_path file_paths
             /\ path_exists (fs w) file_path = true
             /\ zip_write_error E file_path (fs w) = Some e
    end.
Proof.
  induction file_paths as [| file_path rest IH]; intros zip_file w.
  - cbn. split; [reflexivity |]. exists []. rewrite app_nil_r.
    split; [reflexivity |]. split; [constructor | intros p []].
  - rewrite zip_write_all_cons. cbn [List.filter].
    destruct (path_exists (fs w) file_path) eqn:Hfound.
    + pose proof (zip_write_outcome E file_path w Hfound) as Hwrite.
      unfold bind.
      destruct (zip_write E file_path w) as [[member | e] w1].
      * destruct Hwrite as (-> & Hnone & Hstored).
        specialize (IH (zip_file ++ [member]) w).
        destruct (zip_write_all E rest (zip_file ++ [member]) w)
          as [[zip_data | e] w'].
        -- destruct IH as (-> & written & -> & Hall & Hfree).
           split; [reflexivity |]. exists (member :: written).
           split; [rewrite <- app_assoc; reflexivity |].
           split; [constructor; assumption |].
           intros p [<- | Hp]; [exact Hnone | apply Hfree; exact Hp].
        -- destruct IH as (-> & p & Hin & Hp & Herr).
           split; [reflexivity |]. exists p.
           split; [right; exact Hin | auto].
      * destruct Hwrite as [-> Herr]. split; [reflexivity |].
        exists file_path. split; [left; reflexivity | auto].
    + specialize (IH zip_file w).
      destruct (zip_write_all E rest zip_file w) as [[zip_data | e] w'].
      * exact IH.
      * destruct IH as (-> & p & Hin & Hp & Herr).
        split; [reflexivity |]. exists p. split; [right; exact Hin | auto].
Qed.

(** A path that is not on disk is as good as not listed. *)
Lemma zip_write_all_filter E file_paths :
  forall zip_file w,
    zip_write_all E file_paths zip_file w
    = zip_write_all E (List.filter (path_exists (fs w)) file_paths) zip_file w.
Proof.
  induction file_paths as [| file_path rest IH]; intros zip_file w;
    [reflexivity |].
  rewrite zip_write_all_cons. cbn [List.filter].
  destruct (path_exists (fs w) file_path) eqn:Hfound; [| apply IH].
  rewrite zip_write_all_cons, Hfound.
  pose proof (zip_write_outcome E file_path w Hfound) as Hwrite.
  unfold bind. destruct (zip_write E file_path w) as [[member | e] w1];
    [| reflexivity].
  destruct Hwrite as (-> & _). apply IH.
Qed.

(** C9, as stated, fails: an existing file that [zipfile] refuses (here
    one dated 1970) makes [create_zip_file] raise; and a listed directory
    is stored too, as an empty member whose name ends in a slash. *)
Lemma bundler_raises_on_a_file_zipfile_refuses :
  let w := Scenario.make_world {[ "/tmp/old.mp3" := Scenario.mp3_data ]} in
  path_exists (fs w) "/tmp/old.mp3" = true
  /\ fst (create_zip_file Scenario.with_old_file ["/tmp/old.mp3"] "out.zip" w)
     = Raise Scenario.old_file_error
  /\ create_zip_file Scenario.healthy ["/tmp"; "/tmp/old.mp3"] "out.zip" w
     = (Ret [{| arcname := "tmp/"; content := [] |};
             {| arcname := "old.mp3"; content := Scenario.mp3_data |}], w).
Proof. vm_compute. repeat split. Qed.

(** C9, amended: a path that is not on disk is skipped without an error:
    [create_zip_file] does on the whole list what it does on the listed
    paths that are on disk.  It leaves the world as it is.  When it
    returns, [zipfile] has refused none of those paths, and the members
    of the archive are, in order, those paths, a file stored under its
    base name with its data and a directory as an empty member named by
    its base name and a slash.  When it raises, the exception is the
    refusal of [zipfile] to store a listed path that is on disk; with no
    such refusal it returns. *)
Theorem create_zip_file_bundles_existing_files E file_paths zip_name w :
  let existing := List.filter (path_exists (fs w)) file_paths in
  create_zip_file E file_paths zip_name w
  = create_zip_file E existing zip_name w
  /\ match create_zip_file E file_paths zip_name w with
     | (Ret zip_data, w') =>
         w' = w
         /\ Forall2 (stored_as (fs w)) existing zip_data
         /\ forall file_path,
              In file_path existing -> zip_write_error E file_path (fs w) = None
     | (Raise e, w') =>
         w' = w
         /\ exists file_path,
              In file_path existing
              /\ zip_write_error E file_path (fs w) = Some e
     end
  /\ ((forall file_path,
         In file_path existing -> zip_write_error E file_path (fs w) = None) ->
      exists zip_data, create_zip_file E file_paths zip_name w = (Ret zip_data, w)).
Proof.
  intros existing. unfold create_zip_file.
  pose proof (zip_write_all_outcome E file_paths [] w) as Hrun.
  split; [apply zip_write_all_filter |].
  destruct (zip_write_all E file_paths [] w) as [[zip_data | e] w'].
  - destruct Hrun as (-> & written & -> & Hall & Hfree).
    split; [split; [reflexivity | split; [exact Hall | exact Hfree]] |].
    intros _. eexists. reflexivity.
  - destruct Hrun as (-> & p & Hin & Hp & Herr).
    assert (Hex : In p existing) by (apply List.filter_In; auto).
    split.
    + split; [reflexivity |]. exists p. auto.
    + intros Hnone. rewrite (Hnone p Hex) in Herr. discriminate.
Qed.

Lemma create_zip_file_bundles_existing_files_witness :
  exists zip_data,
    create_zip_file Scenario.healthy ["/tmp/gone.mp3"; "/tmp/sub/clip.mp4"]
      "out.zip"
      (Scenario.make_world {[ "/tmp/sub/clip.mp4" := Scenario.clip_data ]})
    = (Ret zip_data,
       Scenario.make_world {[ "/tmp/sub/clip.mp4" := Scenario.clip_data ]}).
Proof.
  apply (create_zip_file_bundles_existing_files Scenario.healthy
           ["/tmp/gone.mp3"; "/tmp/sub/clip.mp4"] "out.zip"
           (Scenario.make_world {[ "/tmp/sub/clip.mp4" := Scenario.clip_data ]})).
  intros file_path _. reflexivity.
Defined.

Example bundle_skips_deleted_file :
  fst (create_zip_file Scenario.healthy ["/tmp/gone.mp3"; "/tmp/sub/clip.mp4"]
         "out.zip"
         (Scenario.make_world {[ "/tmp/sub/clip.mp4" := Scenario.clip_data ]}))
  = Ret [{| arcname := "clip.mp4"; content := Scenario.clip_data |}].
Proof. vm_compute. reflexivity. Qed.

(** ** The download section *)













Example stale_output_gets_no_button :
  let w := {| fs := ∅; open_handles := []; log_messages := [];
              output_audio_paths := ["/tmp/clip.mp3"];
              processing_complete := true |} in
  download_section Scenario.healthy Scenario.mp3_individual w = (Ret [], w).
Proof. vm_compute. reflexivity. Qed.

(** Two uploads with the same stem give the same output path; it is
    listed twice, and the second button raises on its widget key. *)
Example same_stem_uploads_break_the_downloads :
  let run := run_batch Scenario.healthy Scenario.mp3_individual
               [Scenario.clip_upload;
                {| name := "clip.avi"; getbuffer := Scenario.clip_data |}]
               Scenario.empty_disk in
  fst run = Ret 2
  /\ output_audio_paths (snd run) = ["/tmp/clip.mp3"; "/tmp/clip.mp3"]
  /\ fst (download_section Scenario.healthy Scenario.mp3_individual (snd run))
     = Raise (DuplicateWidgetID (MsgText "download_clip.mp3")).
Proof. vm_compute. repeat split. Qed.
(** * Further properties of the code *)

(** ** Strings *)

Lemma append_cons x (a b : string) : String x a +:+ b = String x (a +:+ b).
Proof. reflexivity. Qed.

Lemma append_nil_l (b : string) : "" +:+ b = b.
Proof. reflexivity. Qed.

Lemma append_assoc (a b c : string) : (a +:+ b) +:+ c = a +:+ (b +:+ c).
Proof.
  induction a as [| x a IH]; [reflexivity |].
  rewrite !append_cons, IH. reflexivity.
Qed.

Lemma append_nil_r (a : string) : a +:+ "" = a.
Proof.
  induction a as [| x a IH]; [reflexivity |].
  rewrite append_cons, IH. reflexivity.
Qed.

Lemma length_append (a b : string) :
  String.length (a +:+ b) = String.length a + String.length b.
Proof.
  induction a as [| x a IH]; [reflexivity |].
  rewrite append_cons. cbn [String.length]. rewrite IH. reflexivity.
Qed.

Lemma length_intersperse new s :
  String.length (PyStr.intersperse new s)
  = String.length s + String.length s * String.length new.
Proof.
  induction s as [| c r IH]; [reflexivity |].
  cbn [PyStr.intersperse String.length]. rewrite length_append, IH. lia.
Qed.

Lemma prefix_nil_l (s : string) : String.prefix "" s = true.
Proof. destruct s; reflexivity. Qed.

Lemma prefix_refl_app (a b : string) : String.prefix a (a +:+ b) = true.
Proof.
  induction a as [| x a IH]; [apply prefix_nil_l |].
  rewrite append_cons. cbn [String.prefix].
  destruct (ascii_dec x x); [exact IH | contradiction].
Qed.

Lemma prefix_cons_inv a old c r :
  String.prefix (String a old) (String c r) = true ->
  a = c /\ String.prefix old r = true.
Proof. cbn. destruct (ascii_dec a c); [auto | discriminate]. Qed.

Lemma prefix_nil_r old : String.prefix old "" = true -> old = "".
Proof. destruct old; [reflexivity | discriminate]. Qed.

Lemma drop_nil k : PyStr.drop k "" = "".
Proof. destruct k; reflexivity. Qed.

Lemma drop_drop i k s : PyStr.drop i (PyStr.drop k s) = PyStr.drop (k + i) s.
Proof.
  revert s. induction k as [| k IH]; intros s; [reflexivity |].
  destruct s as [| c r]; cbn; [apply drop_nil | apply IH].
Qed.

Lemma drop_app_length (a b : string) : PyStr.drop (String.length a) (a +:+ b) = b.
Proof.
  induction a as [| x a IH]; [reflexivity |].
  rewrite append_cons. exact IH.
Qed.

Lemma take_drop i s : PyStr.take i s +:+ PyStr.drop i s = s.
Proof.
  revert s. induction i as [| i IH]; intros s; [reflexivity |].
  destruct s as [| c r]; [reflexivity |].
  cbn [PyStr.take PyStr.drop]. rewrite append_cons, IH. reflexivity.
Qed.

Lemma lacks_append c a b : lacks c (a +:+ b) = lacks c a && lacks c b.
Proof.
  induction a as [| x a IH]; [reflexivity |].
  rewrite append_cons. cbn [lacks]. rewrite IH. apply andb_assoc.
Qed.

Lemma lacks_drop c k s : lacks c s = true -> lacks c (PyStr.drop k s) = true.
Proof.
  revert s. induction k as [| k IH]; intros s Hs; [exact Hs |].
  destruct s as [| x r]; [reflexivity |].
  cbn in Hs. apply andb_prop in Hs as [_ Hr]. cbn. apply IH. exact Hr.
Qed.

Lemma lacks_take c k s : lacks c s = true -> lacks c (PyStr.take k s) = true.
Proof.
  revert s. induction k as [| k IH]; intros s Hs; [reflexivity |].
  destruct s as [| x r]; [reflexivity |].
  cbn in Hs. apply andb_prop in Hs as [Hx Hr]. cbn. rewrite Hx. apply IH. exact Hr.
Qed.

(** *** [rfind] *)

Lemma rfind_from_lacks c s pos last :
  lacks c s = true -> PyStr.rfind_from c s pos last = last.
Proof.
  revert pos last. induction s as [| a r IH]; intros pos last Hs; [reflexivity |].
  cbn in Hs. apply andb_prop in Hs as [Ha Hr]. cbn.
  apply negb_true_iff in Ha. rewrite Ha. apply IH. exact Hr.
Qed.

(** The index [rfind] returns is that of an occurrence. *)
Lemma rfind_from_hit c s :
  forall pos last,
    let r := PyStr.rfind_from c s pos last in
    r = last
    \/ (pos <= r
        /\ exists rest, PyStr.drop (Z.to_nat (r - pos)) s = String c rest)%Z.
Proof.
  induction s as [| a s' IH]; intros pos last; cbn; [left; reflexivity |].
  destruct (IH (pos + 1)%Z (if Ascii.eqb a c then pos else last))
    as [Hlast | (Hle & rest & Hrest)].
  - destruct (Ascii.eqb_spec a c) as [-> | Hne].
    + right. rewrite Hlast. split; [lia |].
      exists s'. replace (pos - pos)%Z with 0%Z by lia. reflexivity.
    + left. exact Hlast.
  - right. split; [lia |]. exists rest.
    set (r := PyStr.rfind_from c s' (pos + 1) _) in *.
    replace (Z.to_nat (r - pos)) with (S (Z.to_nat (r - (pos + 1)))) by lia.
    exact Hrest.
Qed.

(** Nothing after the index [rfind] returns is an occurrence. *)
Lemma rfind_from_rest_lacks c s :
  forall pos last,
    (last < pos)%Z ->
    let r := PyStr.rfind_from c s pos last in
    lacks c (PyStr.drop (Z.to_nat (r + 1 - pos)) s) = true
    /\ (r = last \/ pos <= r)%Z.
Proof.
  induction s as [| a s' IH]; intros pos last Hlt; cbn.
  - split; [rewrite drop_nil; reflexivity | left; reflexivity].
  - destruct (Ascii.eqb_spec a c) as [-> | Hne].
    + destruct (IH (pos + 1)%Z pos ltac:(lia)) as [Hlacks [Heq | Hle]].
      * rewrite Heq in *. split; [| right; lia].
        replace (Z.to_nat (pos + 1 - pos)) with 1 by lia.
        replace (Z.to_nat (pos + 1 - (pos + 1))) with 0 in Hlacks by lia.
        exact Hlacks.
      * split; [| right; lia].
        set (r := PyStr.rfind_from c s' (pos + 1) pos) in *.
        replace (Z.to_nat (r + 1 - pos)) with (S (Z.to_nat (r + 1 - (pos + 1))))
          by lia.
        exact Hlacks.
    + destruct (IH (pos + 1)%Z last ltac:(lia)) as [Hlacks [Heq | Hle]].
      * rewrite Heq in *. split; [| left; reflexivity].
        replace (Z.to_nat (last + 1 - pos)) with 0 by lia.
        replace (Z.to_nat (last + 1 - (pos + 1))) with 0 in Hlacks by lia.
        cbn in *. rewrite Hlacks.
        apply Ascii.eqb_neq in Hne. rewrite Hne. reflexivity.
      * split; [| right; lia].
        set (r := PyStr.rfind_from c s' (pos + 1) last) in *.
        replace (Z.to_nat (r + 1 - pos)) with (S (Z.to_nat (r + 1 - (pos + 1))))
          by lia.
        exact Hlacks.
Qed.

Lemma rfind_from_app_last c y tail :
  lacks c tail = true ->
  forall pos last,
    PyStr.rfind_from c (y +:+ String c tail) pos last
    = (pos + Z.of_nat (String.length y))%Z.
Proof.
  intros Htail. induction y as [| a y IH]; intros pos last.
  - rewrite append_nil_l. cbn [PyStr.rfind_from String.length].
    rewrite Ascii.eqb_refl. rewrite (rfind_from_lacks _ _ _ _ Htail). lia.
  - rewrite append_cons. cbn [PyStr.rfind_from String.length].
    rewrite IH. lia.
Qed.

(** *** [split('/')] and the last component *)

Lemma split_slash_nonempty s : PyStr.split_slash s <> [].
Proof.
  destruct s as [| c r]; cbn; [discriminate |].
  destruct (Ascii.eqb c "/"); [discriminate |].
  destruct (PyStr.split_slash r); discriminate.
Qed.

Lemma split_slash_lacks s : lacks "/" s = true -> PyStr.split_slash s = [s].
Proof.
  induction s as [| c r IH]; intros Hs; [reflexivity |].
  cbn in Hs. apply andb_prop in Hs as [Hc Hr].
  apply negb_true_iff in Hc. cbn. rewrite Hc, (IH Hr). reflexivity.
Qed.

Lemma split_slash_components s :
  Forall (fun x => lacks "/" x = true) (PyStr.split_slash s).
Proof.
  induction s as [| c r IH]; cbn; [repeat constructor |].
  destruct (Ascii.eqb c "/") eqn:Hc; [constructor; [reflexivity | exact IH] |].
  destruct (PyStr.split_slash r) as [| h t]; [repeat constructor; cbn; rewrite Hc; reflexivity |].
  inversion IH; subst. constructor; [| assumption].
  cbn. rewrite Hc. assumption.
Qed.

Lemma split_slash_app a b :
  PyStr.split_slash (a +:+ String "/" b)
  = PyStr.split_slash a ++ PyStr.split_slash b.
Proof.
  induction a as [| c a IH]; [reflexivity |].
  rewrite append_cons. cbn [PyStr.split_slash].
  destruct (Ascii.eqb c "/"); [rewrite IH; reflexivity |].
  rewrite IH. pose proof (split_slash_nonempty a) as Hne.
  destruct (PyStr.split_slash a) as [| h t]; [contradiction | reflexivity].
Qed.

Lemma split_slash_app_tail p t :
  lacks "/" t = true ->
  PyStr.split_slash (p +:+ t)
  = removelast (PyStr.split_slash p) ++ [List.last (PyStr.split_slash p) "" +:+ t].
Proof.
  intros Ht. induction p as [| c p IH].
  - rewrite append_nil_l. apply split_slash_lacks. exact Ht.
  - rewrite append_cons. cbn [PyStr.split_slash].
    pose proof (split_slash_nonempty p) as Hne.
    destruct (Ascii.eqb c "/").
    + rewrite IH. destruct (PyStr.split_slash p) as [| h t']; [contradiction |].
      reflexivity.
    + rewrite IH. destruct (PyStr.split_slash p) as [| h t']; [contradiction |].
      destruct t' as [| h' t'']; reflexivity.
Qed.

Lemma last_In_or_default {A} (l : list A) d :
  l = [] \/ In (List.last l d) l.
Proof.
  induction l as [| x l IH]; [left; reflexivity |]. right.
  destruct IH as [-> | Hin]; [left; reflexivity |].
  destruct l as [| y l']; [left; reflexivity |]. right. exact Hin.
Qed.

(** [Path(p).name] is empty or one of the components of [p]. *)
Lemma name_component p :
  PosixPath.name p = "" \/ In (PosixPath.name p) (PyStr.split_slash p).
Proof.
  unfold PosixPath.name.
  destruct (last_In_or_default
              (List.filter (fun x => negb (String.eqb x "") && negb (String.eqb x "."))
                           (PyStr.split_slash p)) "") as [Hnil | Hin].
  - left. rewrite Hnil. reflexivity.
  - right. apply List.filter_In in Hin as [Hin _]. exact Hin.
Qed.

Lemma name_lacks_slash p : lacks "/" (PosixPath.name p) = true.
Proof.
  destruct (name_component p) as [-> | Hin]; [reflexivity |].
  pose proof (split_slash_components p) as Hall.
  rewrite List.Forall_forall in Hall. apply Hall. exact Hin.
Qed.

Lemma stem_lacks_slash p : lacks "/" (PosixPath.stem p) = true.
Proof.
  unfold PosixPath.stem. destruct (PosixPath.suffix_at _ _).
  - apply lacks_take. apply name_lacks_slash.
  - apply name_lacks_slash.
Qed.

(** The name of a path that ends in a slash-free, proper tail. *)
Lemma name_app_tail p t :
  lacks "/" t = true ->
  let tail := List.last (PyStr.split_slash p) "" +:+ t in
  tail <> "" -> tail <> "." ->
  PosixPath.name (p +:+ t) = tail.
Proof.
  intros Ht tail Hne Hdot. unfold PosixPath.name.
  rewrite (split_slash_app_tail p t Ht). fold tail.
  rewrite List.filter_app. cbn [List.filter].
  apply String.eqb_neq in Hne, Hdot. rewrite Hne, Hdot. cbn [negb andb].
  apply last_last.
Qed.

(** *** Occurrences *)

Lemma occurs_in_nil s : occurs_in "" s.
Proof. exists 0. apply prefix_nil_l. Qed.

Lemma occurs_in_cons old c s : occurs_in old s -> occurs_in old (String c s).
Proof. intros [k Hk]. exists (S k). exact Hk. Qed.

Lemma split_slash_head_prefix s h t :
  PyStr.split_slash s = h :: t -> String.prefix h s = true.
Proof.
  revert h t. induction s as [| c r IH]; intros h t Hsplit.
  - inversion Hsplit. reflexivity.
  - cbn in Hsplit. destruct (Ascii.eqb c "/").
    + inversion Hsplit. reflexivity.
    + destruct (PyStr.split_slash r) as [| h' t'] eqn:Hr.
      * inversion Hsplit. cbn. destruct (ascii_dec c c); [apply prefix_nil_l | contradiction].
      * inversion Hsplit; subst. cbn.
        destruct (ascii_dec c c); [| contradiction].
        eapply IH. reflexivity.
Qed.

(** Every tail of every component of a path occurs in the path. *)
Lemma component_tail_occurs s :
  forall x i, In x (PyStr.split_slash s) -> occurs_in (PyStr.drop i x) s.
Proof.
  induction s as [| c r IH]; intros x i Hin.
  - cbn in Hin. destruct Hin as [<- | []]. rewrite drop_nil. apply occurs_in_nil.
  - cbn in Hin. destruct (Ascii.eqb c "/").
    + destruct Hin as [<- | Hin].
      * rewrite drop_nil. apply occurs_in_nil.
      * apply occurs_in_cons. apply IH. exact Hin.
    + destruct (PyStr.split_slash r) as [| h t] eqn:Hr.
      * destruct Hin as [<- | []]. destruct i as [| i].
        -- exists 0. cbn. destruct (ascii_dec c c); [| contradiction].
           apply prefix_nil_l.
        -- cbn. rewrite drop_nil. apply occurs_in_nil.
      * destruct Hin as [<- | Hin].
        -- destruct i as [| i].
           ++ exists 0. cbn. destruct (ascii_dec c c); [| contradiction].
              eapply split_slash_head_prefix. exact Hr.
           ++ cbn. apply occurs_in_cons. apply IH. left. reflexivity.
        -- apply occurs_in_cons. apply IH. right. exact Hin.
Qed.

(** [Path(p).suffix] is empty, or starts with a dot and occurs in [p]. *)
Lemma suffix_shape p :
  PosixPath.suffix p = ""
  \/ (exists rest, PosixPath.suffix p = String "." rest)
     /\ occurs_in (PosixPath.suffix p) p.
Proof.
  unfold PosixPath.suffix.
  destruct (PosixPath.suffix_at _ _) eqn:Hat; [| left; reflexivity].
  right. unfold PosixPath.suffix_at in Hat.
  apply andb_prop in Hat as [Hpos _]. apply Z.ltb_lt in Hpos.
  unfold PyStr.slice_from. split.
  - destruct (rfind_from_hit "." (PosixPath.name p) 0 (-1))
      as [Hnone | (_ & rest & Hrest)].
    + unfold PyStr.rfind in Hpos. lia.
    + exists rest. unfold PyStr.rfind.
      rewrite Z.sub_0_r in Hrest. exact Hrest.
  - destruct (name_component p) as [Hname | Hin].
    + rewrite Hname, drop_nil. apply occurs_in_nil.
    + apply component_tail_occurs. exact Hin.
Qed.

(** *** The temporary file *)

Lemma replace_scan_changes old' new' s :
  occurs_in (String "." old') s ->
  PyStr.replace_scan (String "." old') (String "_" new') s 0 <> s.
Proof.
  induction s as [| c r IH]; intros [k Hk].
  - rewrite drop_nil in Hk. discriminate.
  - cbn [PyStr.replace_scan].
    destruct (String.prefix (String "." old') (String c r)) eqn:Hhere.
    + apply prefix_cons_inv in Hhere as [<- _].
      rewrite append_cons. intros Heq. inversion Heq.
    + intros Heq. inversion Heq as [Hrest]. apply (IH ltac:(
        destruct k as [| k]; [cbn [PyStr.drop] in Hk; congruence |];
        exists k; exact Hk)).
      exact Hrest.
Qed.

(** The temporary file of line 137 is never the output file itself. *)
Lemma temp_wav_of_distinct output_path : temp_wav_of output_path <> output_path.
Proof.
  unfold temp_wav_of.
  destruct (suffix_shape output_path) as [Hnone | [[rest Hdot] Hocc]].
  - rewrite Hnone. unfold PyStr.replace. intros Heq.
    apply (f_equal String.length) in Heq.
    rewrite length_append, length_intersperse in Heq. cbn in Heq. lia.
  - rewrite Hdot in *. unfold PyStr.replace.
    apply replace_scan_changes. exact Hocc.
Qed.

(** *** Paths built by the page *)

Lemma basename_lacks_slash p : lacks "/" (PosixPath.basename p) = true.
Proof.
  unfold PosixPath.basename, PyStr.slice_from, PyStr.rfind.
  destruct (rfind_from_rest_lacks "/" p 0 (-1) ltac:(lia)) as [Hlacks _].
  rewrite Z.sub_0_r in Hlacks. exact Hlacks.
Qed.

(** Staging under /tmp keeps the suffix of the uploaded name. *)
Lemma suffix_join_tmp n :
  PosixPath.suffix (PosixPath.join "/tmp" n) = PosixPath.suffix n.
Proof.
  unfold PosixPath.join. destruct (PyStr.startswith n "/"); [reflexivity |].
  change (String.eqb "/tmp" "" || PyStr.endswith "/tmp" "/") with false.
  cbv iota.
  change ("/tmp" +:+ "/" +:+ n) with ("/tmp" +:+ String "/" n).
  unfold PosixPath.suffix, PosixPath.name.
  rewrite split_slash_app.
  change (PyStr.split_slash "/tmp") with [""; "tmp"].
  cbn [app List.filter String.eqb Ascii.eqb Bool.eqb negb andb].
  destruct (List.filter _ (PyStr.split_slash n)) as [| x l]; reflexivity.
Qed.

Lemma length_pos_neq (s : string) : 0 < String.length s -> s <> "".
Proof. destruct s; cbn; [lia | discriminate]. Qed.

Lemma neq_length_pos (s : string) : s <> "" -> 0 < String.length s.
Proof. destruct s; cbn; [contradiction | lia]. Qed.

(** The suffix of a path that ends in [y.fmt]. *)
Lemma suffix_of_dotted p y fmt :
  lacks "/" y = true -> lacks "/" fmt = true -> lacks "." fmt = true ->
  fmt <> "" ->
  List.last (PyStr.split_slash p) "" +:+ y <> "" ->
  PosixPath.suffix (p +:+ (y +:+ String "." fmt)) = String "." fmt.
Proof.
  intros Hy Hfmt Hdot Hne Hstem.
  set (front := List.last (PyStr.split_slash p) "" +:+ y) in *.
  assert (Hname : PosixPath.name (p +:+ (y +:+ String "." fmt))
                  = front +:+ String "." fmt).
  { unfold front. rewrite append_assoc.
    apply name_app_tail.
    - rewrite lacks_append, Hy. cbn. exact Hfmt.
    - apply length_pos_neq. rewrite !length_append. cbn. lia.
    - intros Heq. apply (f_equal String.length) in Heq.
      rewrite <- append_assoc, length_append in Heq. fold front in Heq.
      apply neq_length_pos in Hstem, Hne. cbn in Heq. lia. }
  unfold PosixPath.suffix. rewrite Hname.
  unfold PyStr.rfind. rewrite (rfind_from_app_last "." front fmt Hdot).
  unfold PosixPath.suffix_at. rewrite length_append. cbn [String.length].
  apply neq_length_pos in Hstem, Hne.
  replace (0 <? 0 + Z.of_nat (String.length front))%Z with true
    by (symmetry; apply Z.ltb_lt; lia).
  replace (0 + Z.of_nat (String.length front)
           <? Z.of_nat (String.length front + S (String.length fmt)) - 1)%Z
    with true by (symmetry; apply Z.ltb_lt; lia).
  cbn [andb]. unfold PyStr.slice_from.
  replace (Z.to_nat (0 + Z.of_nat (String.length front)))
    with (String.length front) by lia.
  apply drop_app_length.
Qed.

Lemma startswith_slash_lacks s :
  lacks "/" s = true -> s <> "" -> PyStr.startswith s "/" = false.
Proof.
  destruct s as [| c r]; [contradiction |]. intros Hs _.
  cbn in Hs. apply andb_prop in Hs as [Hc _]. apply negb_true_iff in Hc.
  unfold PyStr.startswith. cbn [String.prefix].
  destruct (ascii_dec "/" c) as [<- | Hne]; [| reflexivity].
  rewrite Ascii.eqb_refl in Hc. discriminate.
Qed.

(** The output path the page builds ends in [.format]. *)
Lemma suffix_output_audio_path cfg uploaded_file :
  lacks "/" (output_format cfg) = true ->
  lacks "." (output_format cfg) = true ->
  output_format cfg <> "" ->
  filename_prefix cfg <> "" \/ PosixPath.stem (name uploaded_file) <> "" ->
  PosixPath.suffix (output_audio_path_of cfg uploaded_file)
  = String "." (output_format cfg).
Proof.
  intros Hslash Hdot Hfmt Hsome.
  pose proof (stem_lacks_slash (name uploaded_file)) as Hbase.
  unfold output_audio_path_of. cbv zeta.
  set (base := PosixPath.stem (name uploaded_file)) in *.
  set (fmt := output_format cfg) in *.
  destruct (String.eqb_spec (filename_prefix cfg) "") as [Hempty | Hprefix];
    cbn [negb].
  - destruct Hsome as [Hsome | Hsome]; [contradiction |].
    change (base +:+ "." +:+ fmt) with (base +:+ String "." fmt).
    unfold PosixPath.join.
    rewrite startswith_slash_lacks.
    + change (String.eqb "/tmp" "" || PyStr.endswith "/tmp" "/") with false.
      cbv iota.
      change ("/tmp" +:+ "/" +:+ base +:+ String "." fmt)
        with ("/tmp/" +:+ (base +:+ String "." fmt)).
      apply suffix_of_dotted; auto.
    + rewrite lacks_append, Hbase. cbn. exact Hslash.
    + apply length_pos_neq. rewrite length_append. cbn. lia.
  - set (pre := filename_prefix cfg) in *.
    change (pre +:+ "_" +:+ base +:+ "." +:+ fmt)
      with (pre +:+ (String "_" base +:+ String "." fmt)).
    assert (Hy : lacks "/" (String "_" base) = true) by (cbn; exact Hbase).
    unfold PosixPath.join.
    destruct (PyStr.startswith _ "/").
    + apply suffix_of_dotted; auto.
      apply length_pos_neq. rewrite length_append. cbn. lia.
    + change (String.eqb "/tmp" "" || PyStr.endswith "/tmp" "/") with false.
      cbv iota.
      change ("/tmp" +:+ "/" +:+ pre +:+ String "_" base +:+ String "." fmt)
        with ("/tmp/" +:+ (pre +:+ (String "_" base +:+ String "." fmt))).
      rewrite <- append_assoc.
      apply suffix_of_dotted; auto.
      apply length_pos_neq. rewrite length_append. cbn. lia.
Qed.

(** The member name of a path has no slash. *)
Lemma zip_arcname_lacks_slash p : lacks "/" (zip_arcname p) = true.
Proof.
  unfold zip_arcname. cbv zeta.
  destruct (String.eqb (PosixPath.basename p) ""); [reflexivity |].
  apply basename_lacks_slash.
Qed.

(** The extension of a staged path is that of the uploaded name. *)
Lemma extension_join_tmp E n :
  extension E (PosixPath.join "/tmp" n) = extension E n.
Proof. unfold extension. rewrite suffix_join_tmp. reflexivity. Qed.

(** ** The media inspector and the converter *)

(** X1: [get_audio_info] never raises.  It returns a dictionary exactly
    when ffprobe exited with status 0 and the scan of its output found an
    audio stream; in every other case (non-zero status, ffprobe missing,
    unreadable output, no audio stream) it returns [None].  It writes to
    the log only when it caught an exception, and then one entry. *)
Theorem get_audio_info_outcome E file_path w :
  exists result w',
    get_audio_info E file_path w = (Ret result, w')
    /\ (forall info,
          result = Some info <->
          exists cp files,
            subprocess_run E (ffprobe_cmd file_path) (fs w) = (Ret cp, files)
            /\ returncode cp = 0%Z
            /\ audio_stream_of_json E (stdout cp) = Ret (Some info))
    /\ (log_messages w' = log_messages w
        \/ exists e,
             result = None
             /\ log_messages w' = log_messages w ++ [LogProbeException e]).
Proof.
  unfold get_audio_info, try_except, bind, call_io, call_pure, log, ret.
  destruct (subprocess_run E (ffprobe_cmd file_path) (fs w))
    as [[cp | e] files] eqn:Hrun; cbn.
  - destruct (Z.eqb_spec (returncode cp) 0) as [Hzero | Hnonzero]; cbn.
    + destruct (audio_stream_of_json E (stdout cp)) as [found | e] eqn:Hparse;
        cbn; eexists _, _; (split; [reflexivity |]); split.
      * intros info. split.
        -- intros ->. exists cp, files. auto.
        -- intros (cp' & files' & Heq & _ & Hfound).
           inversion Heq; subst. congruence.
      * left. reflexivity.
      * intros info. split; [discriminate |].
        intros (cp' & files' & Heq & _ & Hfound).
        inversion Heq; subst. congruence.
      * right. exists e. split; reflexivity.
    + eexists _, _. split; [reflexivity |]. split.
      * intros info. split; [discriminate |].
        intros (cp' & files' & Heq & Hzero & _).
        inversion Heq; subst. contradiction.
      * left. reflexivity.
  - eexists _, _. split; [reflexivity |]. split.
    + intros info. split; [discriminate |].
      intros (cp' & files' & Heq & _). discriminate.
    + right. exists e. split; reflexivity.
Qed.

(** X2: [convert_audio_format] never raises.  It exports under the format
    named by the output suffix without its dot (case kept), with a bit
    rate of 320k exactly when that name is "mp3"; it returns [True] exactly
    when reading the WAV file and the export both went through, and when
    it returns [False] it has logged the exception. *)
Theorem convert_audio_format_outcome E input_audio_path output_path w :
  let output_format := PyStr.slice_from (PosixPath.suffix output_path) 1 in
  let bitrate := if String.eqb output_format "mp3" then Some "320k" else None in
  exists ok w',
    convert_audio_format E input_audio_path output_path w = (Ret ok, w')
    /\ (ok = true <->
        exists segment files,
          from_wav E input_audio_path (fs w) = Ret segment
          /\ export E segment output_path output_format bitrate (fs w)
             = (Ret tt, files))
    /\ (ok = false ->
        exists e, log_messages w' = log_messages w ++ [LogConvertException e]).
Proof.
  intros output_format bitrate. subst bitrate.
  unfold convert_audio_format. cbv zeta. fold output_format.
  clearbody output_format.
  unfold try_except, bind, call_pure, call_io, log, ret.
  destruct (from_wav E input_audio_path (fs w)) as [segment | e] eqn:Hread.
  - destruct (String.eqb_spec output_format "mp3") as [-> | Hmp3];
      [| destruct (String.eqb_spec output_format "flac") as [-> | Hflac]];
      match goal with
      | |- context [export E segment output_path ?f ?b (fs w)] =>
          destruct (export E segment output_path f b (fs w))
            as [[[] | e] files] eqn:Hexport
      end; cbn; eexists _, _; (split; [reflexivity |]); split;
      try (intros _; eexists; reflexivity);
      try discriminate;
      try (split; [intros _; exists segment, files; auto |reflexivity]);
      (split; [discriminate |]);
      intros (segment' & files' & Hs & Hx); inversion Hs; subst;
      congruence.
  - cbn. eexists _, _. split; [reflexivity |]. split.
    + split; [discriminate |]. intros (segment & files & Hs & _). discriminate.
    + intros _. exists e. reflexivity.
Qed.

(** ** The fallback extractor, continued *)

(** X3: the temporary WAV file of line 137 is never the output file, so
    removing it (line 143) leaves the output as it is. *)
Theorem temp_file_is_not_the_output E output_path w :
  temp_wav_of output_path <> output_path
  /\ fs (snd (os_remove E (temp_wav_of output_path) w)) !! output_path
     = fs w !! output_path.
Proof.
  pose proof (temp_wav_of_distinct output_path) as Hdistinct.
  split; [exact Hdistinct |].
  unfold os_remove.
  destruct (fs w !! temp_wav_of output_path) as [[data |] |]; try reflexivity.
  destruct (os_refuses E Remove (temp_wav_of output_path) (fs w));
    [reflexivity |].
  cbn. apply lookup_delete_ne. exact Hdistinct.
Qed.

Lemma extract_audio_with_moviepy_wav_output E input_path output_path w w' :
  PyStr.endswith output_path ".wav" = true ->
  extract_audio_with_moviepy E input_path output_path w = (Ret true, w') ->
  path_exists (fs w') output_path = true.
Proof.
  intros Hwav. unfold extract_audio_with_moviepy, try_except.
  destruct (bind _ _ w) as [[ok | e] wz] eqn:Hbody;
    [| cbv [bind log ret]; discriminate].
  intros Heq. inversion Heq; subst ok wz. clear Heq.
  apply bind_Ret_inv in Hbody as (u0 & w0 & _ & Hbody).
  apply bind_Ret_inv in Hbody as (video & w1 & _ & Hbody). cbv zeta in Hbody.
  apply bind_Ret_inv in Hbody as (u1 & w2 & _ & Hbody).
  apply bind_Ret_inv in Hbody as (u2 & w3 & Hmove & Hbody).
  apply bind_Ret_inv in Hbody as (u3 & w4 & Hvclose & Hbody).
  apply bind_Ret_inv in Hbody as (u4 & w5 & Haclose & Hbody).
  cbv [bind log ret] in Hbody. inversion Hbody; subst w'. clear Hbody.
  cbv [video_close] in Hvclose. inversion Hvclose; subst u3 w4. clear Hvclose.
  rewrite Hwav in Hmove. cbn [negb] in Hmove.
  destruct u2. apply os_rename_Ret in Hmove as (n & _ & ->).
  destruct (audio video) as [clip |]; [| discriminate].
  cbv [audio_close] in Haclose. inversion Haclose; subst u4 w5.
  cbn. eapply path_exists_Some. apply lookup_insert_eq.
Qed.

(** X4: when the fallback extractor returns [True], the temporary WAV file
    is gone, and the open readers are exactly those that were open before
    the call: the two readers of the clip it opened (numbered after every
    reader that was open) are closed, and no reader of an earlier run is;
    and when the output path ends in ".wav" the output is on disk. *)
Theorem fallback_success_postcondition E input_path output_path w w' :
  extract_audio_with_moviepy E input_path output_path w = (Ret true, w') ->
  path_exists (fs w') (temp_wav_of output_path) = false
  /\ open_handles w' = open_handles w
  /\ (exists video w1 clip,
        open_video E input_path (append_log LogMoviepyStart w) = (Ret video, w1)
        /\ audio video = Some clip
        /\ open_handles w1
           = open_handles w
               ++ [VideoReader (video_reader video) input_path;
                   AudioReader (audio_reader clip) input_path]
        /\ forall h, In h (open_handles w') ->
             handle_id h <> video_reader video
             /\ handle_id h <> audio_reader clip)
  /\ (PyStr.endswith output_path ".wav" = true ->
      path_exists (fs w') output_path = true).
Proof.
  intros Hrun.
  destruct (fallback_success_cleans_up E input_path output_path w w'
              (temp_wav_of_distinct output_path) Hrun)
    as (Hgone & Hsame & video & w1 & Hopen & Hid & clip & Haudio & Haid).
  split; [exact Hgone |]. split; [exact Hsame |]. split.
  - exists video, w1, clip. split; [exact Hopen |]. split; [exact Haudio |].
    split.
    + unfold open_video in Hopen.
      destruct (VideoFileClip E) as [construct |]; [| discriminate].
      cbn [fs append_log open_handles] in Hopen.
      destruct (construct input_path (fs w)) as [[|] | e];
        inversion Hopen as [[Hvideo Hw1]]; subst video;
        cbn in Haudio; [| discriminate].
      inversion Haudio; subst clip. reflexivity.
    + intros h Hh. rewrite Hsame in Hh.
      pose proof (fresh_handle_above _ _ Hh). lia.
  - intros Hwav. eapply extract_audio_with_moviepy_wav_output; eassumption.
Qed.

Lemma fallback_success_postcondition_witness :
  let first := snd (extract_audio_with_moviepy Scenario.broken_audio
                      "/tmp/clip.mp4" "/tmp/clip.mp3" Scenario.staged_clip) in
  let run := extract_audio_with_moviepy Scenario.healthy "/tmp/clip.mp4"
               "/tmp/clip.wav" first in
  path_exists (fs (snd run)) (temp_wav_of "/tmp/clip.wav") = false
  /\ open_handles (snd run)
     = [VideoReader 1 "/tmp/clip.mp4"; AudioReader 2 "/tmp/clip.mp4"]
  /\ path_exists (fs (snd run)) "/tmp/clip.wav" = true.
Proof.
  intros first run.
  destruct (fallback_success_postcondition Scenario.healthy "/tmp/clip.mp4"
              "/tmp/clip.wav" first (snd run))
    as (Hgone & Hsame & _ & Hwav).
  - vm_compute. reflexivity.
  - split; [exact Hgone |]. split; [rewrite Hsame; vm_compute; reflexivity |].
    apply Hwav. vm_compute. reflexivity.
Defined.

Lemma extract_audio_with_moviepy_without_library E input_path output_path w :
  VideoFileClip E = None ->
  extract_audio_with_moviepy E input_path output_path w
  = (Ret false,
     append_log (LogMoviepyException (TypeError (MsgText "VideoFileClip")))
       (append_log LogMoviepyStart w)).
Proof.
  intros Hnone. unfold extract_audio_with_moviepy, try_except.
  unfold bind at 1. unfold log at 1.
  assert (Hopen : open_video E input_path (append_log LogMoviepyStart w)
                  = (Raise (TypeError (MsgText "VideoFileClip")),
                     append_log LogMoviepyStart w)).
  { unfold open_video. rewrite Hnone. reflexivity. }
  rewrite (bind_Raise _ _ _ _ _ Hopen). reflexivity.
Qed.

(** X5: when neither import of MoviePy worked ([VideoFileClip] is [None]),
    the fallback can only fail: the two attempts together succeed exactly
    when ffmpeg ran and exited with status 0, no exception escapes, and no
    reader is left open. *)
Theorem without_moviepy_only_ffmpeg_counts
  E input_path output_path output_format w :
  VideoFileClip E = None ->
  exists ok w',
    extract_attempts E input_path output_path output_format w = (Ret ok, w')
    /\ (ok = true <->
        exists cp files,
          subprocess_run E (ffmpeg_cmd input_path output_path output_format)
            (fs w) = (Ret cp, files)
          /\ returncode cp = 0%Z)
    /\ open_handles w' = open_handles w.
Proof.
  intros Hnone.
  destruct (extract_audio_with_ffmpeg_run E input_path output_path
              output_format w) as (ok & w1 & Hrun & Hok & _ & Hhandles).
  unfold extract_attempts. rewrite (bind_Ret _ _ _ _ _ Hrun).
  destruct ok; cbn [negb].
  - exists true, w1. split; [reflexivity |]. split; assumption.
  - unfold bind at 1. unfold log at 1.
    rewrite (extract_audio_with_moviepy_without_library _ _ _ _ Hnone).
    eexists _, _. split; [reflexivity |]. split; [exact Hok |].
    cbn. exact Hhandles.
Qed.

Lemma without_moviepy_only_ffmpeg_counts_witness :
  fst (extract_attempts Scenario.no_moviepy
         "/tmp/clip.mp4" "/tmp/clip.mp3" ".mp3" Scenario.staged_clip)
  = Ret false.
Proof.
  destruct (without_moviepy_only_ffmpeg_counts Scenario.no_moviepy
              "/tmp/clip.mp4" "/tmp/clip.mp3" ".mp3" Scenario.staged_clip
              eq_refl) as (ok & w' & Hrun & Hok & _).
  rewrite Hrun. cbn [fst]. destruct ok; [| reflexivity].
  destruct Hok as [Hok _]. destruct (Hok eq_refl) as (cp & files & Heq & Hzero).
  unfold Scenario.no_moviepy, Scenario.machine in Heq.
  cbn [subprocess_run] in Heq. unfold Scenario.failing_tool in Heq.
  injection Heq as Hcp _. subst cp. discriminate Hzero.
Defined.

(** ** Validation inside the orchestrator *)

Lemma extract_audio_prelude_raises E input_path output_path w e w1 :
  extract_prelude E input_path output_path w = (Raise e, w1) ->
  extract_audio E input_path output_path w
  = (Ret false, append_log (LogError e) w1).
Proof.
  intros Hpre. unfold extract_audio.
  erewrite try_except_Raise; [reflexivity |].
  apply bind_Raise. exact Hpre.
Qed.

(** X6: an item that fails validation on its extension never reaches a
    tool: for an input on disk whose extension is outside the video list,
    or an accepted input with an output extension outside the audio list,
    [extract_audio] returns [False] and changes nothing but the log, which
    gains the one [ValueError] entry -- whatever the external tools would
    have done.  The extension is the suffix lowered as [str.lower] lowers
    it. *)
Theorem rejected_extension_runs_no_tool E input_path output_path w :
  path_exists (fs w) input_path = true ->
  let in_ext := extension E input_path in
  let out_ext := extension E output_path in
  (py_in in_ext supported_video_formats = false ->
   extract_audio E input_path output_path w
   = (Ret false, append_log (LogError (ValueError (MsgUnsupportedVideo in_ext))) w))
  /\ (py_in in_ext supported_video_formats = true ->
      py_in out_ext supported_audio_formats = false ->
      extract_audio E input_path output_path w
      = (Ret false,
         append_log (LogError (ValueError (MsgUnsupportedAudio out_ext))) w)).
Proof.
  intros Hfound in_ext out_ext.
  pose proof (validate_input_file_present E _ _ Hfound) as Hin.
  cbv zeta in Hin. fold in_ext in Hin.
  split.
  - intros Hvideo. rewrite Hvideo in Hin.
    apply extract_audio_prelude_raises.
    unfold extract_prelude. apply bind_Raise. exact Hin.
  - intros Hvideo Haudio. rewrite Hvideo in Hin.
    apply extract_audio_prelude_raises.
    unfold extract_prelude. rewrite (bind_Ret _ _ _ _ _ Hin).
    apply bind_Raise. unfold validate_output_format. cbv zeta.
    fold out_ext. rewrite Haudio. reflexivity.
Qed.

Lemma rejected_extension_runs_no_tool_witness :
  extract_audio Scenario.healthy "/tmp/notes.txt" "/tmp/notes.mp3"
    Scenario.staged_notes
  = (Ret false,
     append_log (LogError (ValueError (MsgUnsupportedVideo ".txt")))
       Scenario.staged_notes)
  /\ extract_audio Scenario.healthy "/tmp/clip.mp4" "/tmp/clip.mid"
       Scenario.staged_clip
     = (Ret false,
        append_log (LogError (ValueError (MsgUnsupportedAudio ".mid")))
          Scenario.staged_clip).
Proof.
  split.
  - apply (rejected_extension_runs_no_tool Scenario.healthy "/tmp/notes.txt"
             "/tmp/notes.mp3" Scenario.staged_notes);
      vm_compute; reflexivity.
  - apply (rejected_extension_runs_no_tool Scenario.healthy "/tmp/clip.mp4"
             "/tmp/clip.mid" Scenario.staged_clip);
      vm_compute; reflexivity.
Defined.

(** ** Paths of the batch loop *)

(** X7: once an upload is staged (the [open] of line 372 did not raise),
    the input validator looks at the extension of the uploaded name only:
    it accepts the staged path exactly when the lowered suffix of the
    name is in the video list, and raises [ValueError] otherwise -- never
    [FileNotFoundError]. *)
Theorem staged_upload_validation E uploaded_file w w0 :
  stage_input E uploaded_file w = (Ret tt, w0) ->
  let file_ext := extension E (name uploaded_file) in
  validate_input_file E (input_video_path_of uploaded_file) w0
  = (if py_in file_ext supported_video_formats then Ret true
     else Raise (ValueError (MsgUnsupportedVideo file_ext)),
     w0).
Proof.
  intros Hstage file_ext.
  apply write_file_Ret in Hstage as ->.
  rewrite validate_input_file_present.
  - cbv zeta. unfold input_video_path_of. rewrite extension_join_tmp.
    reflexivity.
  - eapply path_exists_Some. cbn. apply lookup_insert_eq.
Qed.

Lemma staged_upload_validation_witness :
  validate_input_file Scenario.healthy "/tmp/notes.txt" Scenario.staged_notes
  = (Raise (ValueError (MsgUnsupportedVideo ".txt")), Scenario.staged_notes).
Proof.
  apply (staged_upload_validation Scenario.healthy Scenario.notes_upload
           Scenario.empty_disk Scenario.staged_notes).
  vm_compute. reflexivity.
Defined.

(** An upload whose name is too long is not staged: [open] raises, and
    raises out of the page, before any validation. *)
Example long_name_is_not_staged :
  fst (stage_input Scenario.limited_names Scenario.long_upload
         Scenario.empty_disk) = Raise Scenario.name_too_long.
Proof. vm_compute. reflexivity. Qed.

(** X8: for each format the select box offers, and an upload with a
    non-empty stem or a non-empty prefix, the output path the loop builds
    passes [validate_output_format], which returns the format with its
    dot. *)
Theorem batch_output_path_is_valid E cfg uploaded_file w :
  In (output_format cfg) offered_formats ->
  filename_prefix cfg <> "" \/ PosixPath.stem (name uploaded_file) <> "" ->
  validate_output_format E (output_audio_path_of cfg uploaded_file) w
  = (Ret (String "." (output_format cfg)), w).
Proof.
  intros Hoffered Hsome. unfold validate_output_format, extension. cbv zeta.
  assert (Hfmt : lacks "/" (output_format cfg) = true
                 /\ lacks "." (output_format cfg) = true
                 /\ output_format cfg <> ""
                 /\ PyStr.lower (unicode_lower E) (String "." (output_format cfg))
                    = String "." (output_format cfg)
                 /\ py_in (String "." (output_format cfg))
                      supported_audio_formats = true).
  { unfold offered_formats in Hoffered. cbn [In] in Hoffered.
    destruct Hoffered as [<- | [<- | [<- | [<- | [<- | []]]]]];
      repeat split; discriminate. }
  destruct Hfmt as (Hslash & Hdot & Hne & Hlower & Hin).
  rewrite (suffix_output_audio_path cfg uploaded_file Hslash Hdot Hne Hsome).
  rewrite Hlower, Hin. reflexivity.
Qed.

Lemma batch_output_path_is_valid_witness :
  validate_output_format Scenario.healthy
    (output_audio_path_of Scenario.mp3_zip Scenario.clip_upload)
    Scenario.empty_disk
  = (Ret ".mp3", Scenario.empty_disk).
Proof.
  apply (batch_output_path_is_valid Scenario.healthy Scenario.mp3_zip
           Scenario.clip_upload Scenario.empty_disk).
  - left. reflexivity.
  - right. discriminate.
Defined.

(** An upload with an empty name and no prefix gives the output ".mp3",
    which has no suffix: the hypothesis of X8 is needed. *)
Example empty_stem_output_is_rejected :
  fst (validate_output_format Scenario.healthy
         (output_audio_path_of Scenario.mp3_zip {| name := ""; getbuffer := [] |})
         Scenario.empty_disk)
  = Raise (ValueError (MsgUnsupportedAudio "")).
Proof. reflexivity. Qed.

(** Removing a staged file that is still there. *)
Lemma unstage_input_file E uploaded_file w data :
  fs w !! input_video_path_of uploaded_file = Some (File data) ->
  unstage_input E uploaded_file w
  = match os_refuses E Remove (input_video_path_of uploaded_file) (fs w) with
    | Some e => (Raise e, w)
    | None => (Ret tt, upd_fs (delete (input_video_path_of uploaded_file)) w)
    end.
Proof.
  intros Hfile. unfold unstage_input. cbv zeta. unfold bind, os_path_exists.
  rewrite (path_exists_Some _ _ _ Hfile). unfold os_remove. rewrite Hfile.
  reflexivity.
Qed.

(** X9: an upload that was staged and whose name has an extension outside
    the video list goes through the loop without any tool being run.  The
    log gains the header, the [ValueError] and the failure line; readers,
    tally and result list stay as they are.  Then the staged file is
    removed: the disk is as before the upload, less what was at the staged
    path -- unless [os.remove] is refused, and then the loop ends there
    with that exception. *)
Theorem rejected_upload_leaves_no_trace
  E cfg i total_files uploaded_file n w w0 :
  let staged := input_video_path_of uploaded_file in
  let file_ext := extension E (name uploaded_file) in
  let logged :=
    append_log (LogItemFailed (name uploaded_file))
      (append_log (LogError (ValueError (MsgUnsupportedVideo file_ext)))
         (append_log (LogItemHeader (i + 1) total_files (name uploaded_file))
            w0)) in
  py_in file_ext supported_video_formats = false ->
  stage_input E uploaded_file w = (Ret tt, w0) ->
  process_item E cfg i total_files uploaded_file n w
  = match os_refuses E Remove staged (fs w0) with
    | None => (Ret n, upd_fs (delete staged) logged)
    | Some e => (Raise e, logged)
    end
  /\ fs w0 = <[ staged := File (getbuffer uploaded_file) ]> (fs w)
  /\ delete staged (fs w0) = delete staged (fs w)
  /\ open_handles logged = open_handles w
  /\ output_audio_paths logged = output_audio_paths w
  /\ log_messages logged
     = log_messages w
         ++ [LogItemHeader (i + 1) total_files (name uploaded_file);
             LogError (ValueError (MsgUnsupportedVideo file_ext));
             LogItemFailed (name uploaded_file)].
Proof.
  intros staged file_ext logged Hbad Hstage. subst staged.
  pose proof (write_file_Ret _ _ _ _ _ Hstage) as Hw0.
  assert (Hfile : fs w0 !! input_video_path_of uploaded_file
                  = Some (File (getbuffer uploaded_file))).
  { rewrite Hw0. cbn. apply lookup_insert_eq. }
  set (w1 := append_log (LogItemHeader (i + 1) total_files (name uploaded_file))
               w0) in *.
  assert (Hrun : extract_audio E (input_video_path_of uploaded_file)
                   (output_audio_path_of cfg uploaded_file) w1
                 = (Ret false,
                    append_log
                      (LogError (ValueError (MsgUnsupportedVideo file_ext))) w1)).
  { apply extract_audio_prelude_raises. unfold extract_prelude.
    apply bind_Raise. rewrite validate_input_file_present.
    - cbv zeta. unfold input_video_path_of.
      rewrite extension_join_tmp. fold file_ext. rewrite Hbad. reflexivity.
    - eapply path_exists_Some. exact Hfile. }
  destruct (process_item_staged E cfg i total_files uploaded_file n w w0 Hstage)
    as (success & wa & Hrun' & Hitem).
  fold w1 in Hrun'. rewrite Hrun in Hrun'.
  inversion Hrun'; subst success wa. clear Hrun'.
  split.
  - rewrite Hitem. fold logged. unfold bind.
    rewrite (unstage_input_file E uploaded_file logged _ Hfile).
    change (fs logged) with (fs w0).
    destruct (os_refuses E Remove (input_video_path_of uploaded_file) (fs w0));
      reflexivity.
  - split; [rewrite Hw0; reflexivity |].
    split; [rewrite Hw0; cbn; apply delete_insert_eq |].
    subst logged w1. rewrite Hw0. cbn. repeat split.
    rewrite <- !app_assoc. reflexivity.
Qed.

Lemma rejected_upload_leaves_no_trace_witness :
  process_item Scenario.healthy Scenario.mp3_zip 0 1 Scenario.notes_upload 0
    Scenario.empty_disk
  = (Ret 0,
     upd_fs (delete "/tmp/notes.txt")
       (append_log (LogItemFailed "notes.txt")
          (append_log (LogError (ValueError (MsgUnsupportedVideo ".txt")))
             (append_log (LogItemHeader 1 1 "notes.txt")
                Scenario.staged_notes)))).
Proof.
  destruct (rejected_upload_leaves_no_trace Scenario.healthy Scenario.mp3_zip
              0 1 Scenario.notes_upload 0 Scenario.empty_disk
              Scenario.staged_notes) as (Hrun & _).
  - vm_compute. reflexivity.
  - vm_compute. reflexivity.
  - exact Hrun.
Defined.

(** ** The result list of a batch *)

(** X10: whatever the session held before and however the run ends, the
    result list then holds output paths of this run only: a sub-list, in
    upload order and with at most one entry per upload, of the output
    paths of the uploaded files.  A run that ends normally reports the
    length of that list, at most the number of uploads, and is marked
    complete; a run that ends with an exception (of staging or removal) is
    not marked complete, so the download section stays away. *)
Theorem run_batch_result_list E cfg uploaded_files w :
  let run := run_batch E cfg uploaded_files w in
  sublist (output_audio_paths (snd run))
          (List.map (output_audio_path_of cfg) uploaded_files)
  /\ match fst run with
     | Ret n =>
         n = length (output_audio_paths (snd run))
         /\ n <= length uploaded_files
         /\ processing_complete (snd run) = true
     | Raise e =>
         processing_complete (snd run) = false
         /\ download_section E cfg (snd run) = (Ret [], snd run)
     end.
Proof.
  intros run. subst run.
  destruct (batch_loop_outputs E cfg (length uploaded_files) uploaded_files
              0 0 (reset_session w)) as (new & Hout & Hsub & Hc & _ & Hn).
  cbv zeta in Hout, Hc, Hn. cbn [output_audio_paths processing_complete
                                 reset_session app] in Hout, Hc.
  assert (Hrun :
            run_batch E cfg uploaded_files w
            = match batch_loop E cfg 0 (length uploaded_files) uploaded_files 0
                      (reset_session w) with
              | (Ret n, w1) => (Ret n, set_processing_complete true w1)
              | (Raise e, w1) => (Raise e, w1)
              end).
  { unfold run_batch, bind.
    destruct (batch_loop E cfg 0 (length uploaded_files) uploaded_files 0
                (reset_session w)) as [[n | e] w1]; reflexivity. }
  rewrite Hrun. clear Hrun.
  destruct (batch_loop E cfg 0 (length uploaded_files) uploaded_files 0
              (reset_session w)) as [[n | e] w1]; cbn [fst snd] in *.
  - destruct (Hn n eq_refl) as [-> _]. cbn. rewrite Hout.
    split; [exact Hsub |]. split; [reflexivity |]. split; [| reflexivity].
    apply sublist_length in Hsub. rewrite length_map in Hsub. exact Hsub.
  - rewrite Hout.
    split; [exact Hsub |]. split; [exact Hc |].
    unfold download_section. rewrite Hc. reflexivity.
Qed.

(** ** The log of the orchestrator *)

Lemma extract_verdict_log E output_path success w :
  match extract_verdict E output_path success w with
  | (Ret verdict, w') =>
      exists l,
        log_messages w'
        = log_messages w
            ++ l ++ [if verdict then LogExtractionSucceeded
                     else LogExtractionFailed]
  | (Raise e, w') => log_grows w w'
  end.
Proof.
  unfold extract_verdict. unfold bind at 1. unfold os_path_exists.
  destruct (success && path_exists (fs w) output_path).
  - pose proof (frames_get_audio_info log_grows E output_path w) as Hga.
    destruct (get_audio_info_spec E output_path w) as (info & wa & Hinfo & _).
    rewrite Hinfo in Hga. cbn [snd] in Hga.
    rewrite (bind_Ret _ _ _ _ _ Hinfo).
    destruct (log_optional_info_spec Extracted info wa) as (wb & Hlog & _).
    assert (Hgb : log_grows wa wb).
    { destruct info as [i |].
      - pose proof (frames_log_audio_info log_grows Extracted i wa) as Hf.
        rewrite Hlog in Hf. exact Hf.
      - inversion Hlog. apply frame_refl. }
    rewrite (bind_Ret _ _ _ _ _ Hlog).
    destruct (frame_trans _ _ _ Hga Hgb) as [l Hl].
    unfold bind at 1.
    destruct (os_path_getsize E output_path wb) as [[size | e] wc] eqn:Hsize.
    + apply os_path_getsize_Ret in Hsize as [-> _].
      cbv [bind log ret]. cbn. exists (l ++ [LogFileSize size]).
      rewrite Hl, <- !app_assoc. reflexivity.
    + pose proof (frames_os_path_getsize log_grows E output_path wb) as Hgs.
      rewrite Hsize in Hgs. cbn [snd] in Hgs.
      eapply frame_trans; [exists l; exact Hl | exact Hgs].
  - cbv [bind log ret]. cbn. exists []. reflexivity.
Qed.

(** X11: [extract_audio] only appends to the log, and the last entry it
    appends tells the outcome: the success line when it returns [True];
    the failure line, or the exception it caught, when it returns
    [False]. *)
Theorem extract_audio_last_log_entry E input_path output_path w :
  exists ok w' l final,
    extract_audio E input_path output_path w = (Ret ok, w')
    /\ log_messages w' = log_messages w ++ l ++ [final]
    /\ (ok = true -> final = LogExtractionSucceeded)
    /\ (ok = false ->
        final = LogExtractionFailed \/ exists e, final = LogError e).
Proof.
  unfold extract_audio, try_except.
  pose proof (frames_extract_prelude log_grows E input_path output_path w) as Hp.
  unfold bind at 1.
  destruct (extract_prelude E input_path output_path w)
    as [[output_format | e] w1]; cbn [snd] in Hp.
  - pose proof (frames_extract_attempts log_grows E input_path output_path
                  output_format w1) as Ha.
    unfold bind at 1.
    destruct (extract_attempts E input_path output_path output_format w1)
      as [[success | e] w2]; cbn [snd] in Ha.
    + pose proof (extract_verdict_log E output_path success w2) as Hv.
      destruct (frame_trans _ _ _ Hp Ha) as [l2 Hl2].
      destruct (extract_verdict E output_path success w2) as [[verdict | e] w3].
      * destruct Hv as [l3 Hl3].
        exists verdict, w3, (l2 ++ l3),
          (if verdict then LogExtractionSucceeded else LogExtractionFailed).
        split; [reflexivity |].
        split; [rewrite Hl3, Hl2, <- !app_assoc; reflexivity |].
        destruct verdict; split; intros; try discriminate; auto.
      * destruct Hv as [l3 Hl3]. cbv [bind log ret].
        exists false, (append_log (LogError e) w3), (l2 ++ l3), (LogError e).
        split; [reflexivity |].
        split; [cbn; rewrite Hl3, Hl2, <- !app_assoc; reflexivity |].
        split; [discriminate | intros _; right; eauto].
    + destruct (frame_trans _ _ _ Hp Ha) as [l2 Hl2]. cbv [bind log ret].
      exists false, (append_log (LogError e) w2), l2, (LogError e).
      split; [reflexivity |].
      split; [cbn; rewrite Hl2, <- app_assoc; reflexivity |].
      split; [discriminate | intros _; right; eauto].
  - destruct Hp as [l1 Hl1]. cbv [bind log ret].
    exists false, (append_log (LogError e) w1), l1, (LogError e).
    split; [reflexivity |].
    split; [cbn; rewrite Hl1, <- app_assoc; reflexivity |].
    split; [discriminate | intros _; right; eauto].
Qed.

(** ** Downloads *)


(** Two listed files with the same name in different directories: the
    second button cannot be drawn. *)
Example same_name_in_two_directories :
  let w := {| fs := <[ "/tmp/a/clip.mp3" := File Scenario.mp3_data ]>
                      {[ "/tmp/b/clip.mp3" := File Scenario.full_wav ]};
              open_handles := []; log_messages := [];
              output_audio_paths := ["/tmp/a/clip.mp3"; "/tmp/b/clip.mp3"];
              processing_complete := true |} in
  fst (download_section Scenario.healthy Scenario.mp3_individual w)
  = Raise (DuplicateWidgetID (MsgText "download_clip.mp3"))
  /\ fst (download_section Scenario.healthy Scenario.mp3_zip w)
     = Ret [ZipButton "extracted_audio_mp3.zip"
              [{| arcname := "clip.mp3"; content := Scenario.mp3_data |};
               {| arcname := "clip.mp3"; content := Scenario.full_wav |}] 2].
Proof. vm_compute. repeat split. Qed.

Lemma stored_members_flat (files : FS) (paths : list string) zip_data :
  Forall2 (stored_as files) paths zip_data ->
  Forall2 (fun p e =>
             match files !! p with
             | Some Directory =>
                 exists d, arcname e = d +:+ "/" /\ lacks "/" d = true
             | _ => lacks "/" (arcname e) = true
             end) paths zip_data.
Proof.
  intros Hall. induction Hall as [| p e paths' rest Hpe Hall IH];
    constructor; [| exact IH].
  unfold stored_as in Hpe.
  destruct (files !! p) as [[data |] |]; [| | destruct Hpe].
  - destruct Hpe as [-> _]. apply zip_arcname_lacks_slash.
  - destruct Hpe as [-> _]. exists (zip_arcname p).
    split; [reflexivity | apply zip_arcname_lacks_slash].
Qed.

(** X13: an archive [create_zip_file] returns is flat and complete: it
    has one member per listed path on disk, in list order; the member of
    a file has a name without slash, and the member of a directory a name
    without slash followed by one slash.  So two listed files with the
    same base name give two members of the same name. *)
Theorem archive_is_flat E file_paths zip_name w zip_data w' :
  create_zip_file E file_paths zip_name w = (Ret zip_data, w') ->
  length zip_data = length (List.filter (path_exists (fs w)) file_paths)
  /\ Forall2 (fun p e =>
                match fs w !! p with
                | Some Directory =>
                    exists d, arcname e = d +:+ "/" /\ lacks "/" d = true
                | _ => lacks "/" (arcname e) = true
                end)
             (List.filter (path_exists (fs w)) file_paths) zip_data.
Proof.
  unfold create_zip_file. intros Hrun.
  pose proof (zip_write_all_outcome E file_paths [] w) as Hout.
  rewrite Hrun in Hout. destruct Hout as (_ & written & -> & Hall & _).
  cbn [app]. split.
  - symmetry. eapply Forall2_length. exact Hall.
  - apply stored_members_flat. exact Hall.
Qed.

Lemma archive_is_flat_witness :
  length
    [{| arcname := "clip.mp3"; content := Scenario.mp3_data |};
     {| arcname := "tmp/"; content := [] |};
     {| arcname := "clip.mp3"; content := Scenario.full_wav |}]
  = length
      (List.filter
         (path_exists
            (fs (Scenario.make_world
                   (<[ "/tmp/a/clip.mp3" := Scenario.mp3_data ]>
                      {[ "/tmp/b/clip.mp3" := Scenario.full_wav ]}))))
         ["/tmp/a/clip.mp3"; "/tmp"; "/tmp/gone.mp3"; "/tmp/b/clip.mp3"]).
Proof.
  apply (archive_is_flat Scenario.healthy
           ["/tmp/a/clip.mp3"; "/tmp"; "/tmp/gone.mp3"; "/tmp/b/clip.mp3"]
           "out.zip"
           (Scenario.make_world
              (<[ "/tmp/a/clip.mp3" := Scenario.mp3_data ]>
                 {[ "/tmp/b/clip.mp3" := Scenario.full_wav ]}))
           [{| arcname := "clip.mp3"; content := Scenario.mp3_data |};
            {| arcname := "tmp/"; content := [] |};
            {| arcname := "clip.mp3"; content := Scenario.full_wav |}]
           (Scenario.make_world
              (<[ "/tmp/a/clip.mp3" := Scenario.mp3_data ]>
                 {[ "/tmp/b/clip.mp3" := Scenario.full_wav ]}))).
  vm_compute. reflexivity.
Defined.

(** ** The session state *)

(** X14: [extract_audio] leaves the result list and the completion flag
    of the session alone, and never removes or rewrites a log entry; the
    result list is the business of the batch loop only. *)
Theorem extract_audio_keeps_session E input_path output_path w :
  let w' := snd (extract_audio E input_path output_path w) in
  output_audio_paths w' = output_audio_paths w
  /\ processing_complete w' = processing_complete w
  /\ exists l, log_messages w' = log_messages w ++ l.
Proof.
  intros w'. split; [| split].
  - apply (frames_extract_audio same_outputs E input_path output_path w).
  - apply (frames_extract_audio same_completion E input_path output_path w).
  - apply (frames_extract_audio log_grows E input_path output_path w).
Qed.

(** ** The order of the attempts *)

(** X15: when ffmpeg exits with status 0 the fallback is not tried: the
    two attempts return [True] in the world ffmpeg left, with the command
    line and the completion line added to the log -- MoviePy and pydub are
    not consulted and no reader is opened. *)
Theorem primary_success_skips_fallback
  E input_path output_path output_format w cp files :
  let cmd := ffmpeg_cmd input_path output_path output_format in
  subprocess_run E cmd (fs w) = (Ret cp, files) ->
  returncode cp = 0%Z ->
  extract_attempts E input_path output_path output_format w
  = (Ret true,
     append_log (LogFfmpegDone output_path)
       (upd_fs (fun _ => files)
          (append_log (LogFfmpegCommand (PyStr.join " " cmd)) w))).
Proof.
  intros cmd Hrun Hzero.
  unfold extract_attempts, extract_audio_with_ffmpeg, try_except, bind, log,
    call_io, ret.
  fold cmd. cbn [fs append_log]. rewrite Hrun, Hzero. reflexivity.
Qed.

Lemma primary_success_skips_fallback_witness :
  fst (extract_attempts Scenario.healthy "/tmp/clip.mp4" "/tmp/clip.mp3" ".mp3"
         Scenario.staged_clip) = Ret true
  /\ open_handles
       (snd (extract_attempts Scenario.healthy "/tmp/clip.mp4" "/tmp/clip.mp3"
               ".mp3" Scenario.staged_clip)) = [].
Proof.
  rewrite (primary_success_skips_fallback Scenario.healthy "/tmp/clip.mp4"
             "/tmp/clip.mp3" ".mp3" Scenario.staged_clip
             {| returncode := 0; stdout := ""; stderr := "" |}
             (<[ "/tmp/clip.mp3" := File Scenario.mp3_data ]>
                (fs Scenario.staged_clip))
             eq_refl eq_refl).
  split; reflexivity.
Defined.
